(** * distributed-locks/benchmark.py: the benchmark orchestration loop

    A shallow embedding of [run_benchmark] and [main], and the properties
    of the polling protocol: marker extraction, timeout, teardown, the
    environment handed to the backend, and the report rows.

    Conventions of the embedding.
    - Python [int] is [Z], without bound; [int(s)] refuses a text of more
      than 4300 digits, as the interpreter does by default.  A [str] is a
      [string]; its characters are the code points below 256, where the
      class [\d] of [re] is exactly ['0'..'9'].
    - A [float] is a binary64 value: [a / b] on two [int]s is the quotient
      rounded to the nearest float, ties to even, and raises
      [OverflowError] when that is beyond the largest float; a product
      that is beyond it is infinite.
    - [time.time()] is a reading of the world's clock in milliseconds, so
      the source's bound [60] (seconds) reads [60000] here and
      [time.sleep(1)] asks for [1000].  The clock moves during a backend
      invocation and during a sleep; the program's own steps take no time.
    - Everything the program does to the outside (spawning [docker],
      sleeping, printing) is an event appended to the world's trace; what
      the outside answers is given by a [platform], a pair of oracles over
      the history.
    - [while True] is followed for a number of turns given as [fuel]; a
      loop that has not ended by then is the outcome [Fuel]. *)

From Stdlib Require Import ZArith QArith String Ascii List Lia DecimalString.
From stdpp Require Import base tactics option list strings gmap.

Local Open Scope string_scope.
Local Open Scope list_scope.
Local Open Scope Z_scope.

(** ** Text: the [str] operations the program uses *)

Module Text.

(** One character of [\d]. *)
Definition isdigit (c : ascii) : bool :=
  (48 <=? nat_of_ascii c)%nat && (nat_of_ascii c <=? 57)%nat.

Definition digit_value (c : ascii) : Z := Z.of_nat (nat_of_ascii c) - 48.

(** [s.startswith(p)] *)
Fixpoint startswith (p s : string) : bool :=
  match p, s with
  | EmptyString, _ => true
  | String _ _, EmptyString => false
  | String a p', String b s' => Ascii.eqb a b && startswith p' s'
  end.

(** [p in s] *)
Fixpoint contains (p s : string) : bool :=
  startswith p s ||
  match s with
  | EmptyString => false
  | String _ s' => contains p s'
  end.

(** [s[n:]] *)
Fixpoint tail_from (n : nat) (s : string) : string :=
  match n, s with
  | O, _ => s
  | S _, EmptyString => EmptyString
  | S n', String _ s' => tail_from n' s'
  end.

(** The longest run of digits at the head of [s]: what a greedy [\d*]
    consumes there. *)
Fixpoint digit_run (s : string) : string :=
  match s with
  | EmptyString => EmptyString
  | String c s' => if isdigit c then String c (digit_run s') else EmptyString
  end.

Fixpoint all_digits (s : string) : bool :=
  match s with
  | EmptyString => true
  | String c s' => isdigit c && all_digits s'
  end.

(** The number a run of decimal digits denotes, most significant first. *)
Fixpoint decimal_from (acc : Z) (s : string) : Z :=
  match s with
  | EmptyString => acc
  | String c s' => decimal_from (10 * acc + digit_value c) s'
  end.

Definition decimal (s : string) : Z := decimal_from 0 s.

(** [str(n)] for an [int]. *)
Definition str (n : Z) : string := NilZero.string_of_int (Z.to_int n).

(** [f"{s:<w}"] and [f"{s:>w}"]: pad with spaces, never truncate. *)
Fixpoint spaces (n : nat) : string :=
  match n with
  | O => EmptyString
  | S n' => String " "%char (spaces n')
  end.

Definition ljust (w : nat) (s : string) : string :=
  s +:+ spaces (w - String.length s).

Definition rjust (w : nat) (s : string) : string :=
  spaces (w - String.length s) +:+ s.

(** ["-" * n] *)
Fixpoint dashes (n : nat) : string :=
  match n with
  | O => EmptyString
  | S n' => String "-"%char (dashes n')
  end.

End Text.

(** ** Floats: the arithmetic of line 52 *)

Module Floating.

(** A [float] of the program: a binary64 value, finite with its sign (there
    are two zeros) or infinite.  The magnitude of a finite one is kept in
    lowest terms.  No operation of the program makes a NaN. *)
Inductive float :=
| Finite (negative : bool) (magnitude : Q)
| Infinite (negative : bool).

Definition zero : float := Finite false 0.

(** The sign of a float: [true] for the ones written with a minus sign,
    [-0.0] among them. *)
Definition signbit (x : float) : bool :=
  match x with
  | Finite negative _ | Infinite negative => negative
  end.

(** [2 ** k] *)
Definition pow2 (k : Z) : Q :=
  if 0 <=? k then inject_Z (2 ^ k) else 1 # Z.to_pos (2 ^ (- k)).

(** The least magnitude that rounding to nearest takes beyond the largest
    float [2^1024 - 2^971]: the midpoint between it and [2^1024]. *)
Definition OVERFLOW : Z := 2 ^ 1024 - 2 ^ 970.

(** The integer nearest to [q], ties to even, for [0 <= q]. *)
Definition round_half_even (q : Q) : Z :=
  let d := Z.pos (Qden q) in
  let k := Qnum q / d in
  match 2 * (Qnum q mod d) ?= d with
  | Lt => k
  | Gt => k + 1
  | Eq => if Z.even k then k else k + 1
  end.

(** The exponent of the unit in the last place of the float nearest to
    [q], for [0 < q]: the [e] with [2^52 <= q / 2^e < 2^53], and [-1074]
    for the subnormal ones. *)
Definition ulp_exponent (q : Q) : Z :=
  let e0 := Z.log2 (Qnum q) - Z.log2 (Z.pos (Qden q)) - 53 in
  let e1 := if Qle_bool (inject_Z (2 ^ 53)) (q / pow2 e0) then e0 + 1 else e0 in
  Z.max e1 (-1074).

(** The float nearest to [q], ties to even, for [0 <= q] below
    [OVERFLOW]: 53 bits of [q], counted in units of [2^e]. *)
Definition nearest (q : Q) : Q :=
  let q := Qred q in
  if Qnum q <=? 0 then 0
  else
    let e := ulp_exponent q in
    Qred (inject_Z (round_half_even (q / pow2 e)) * pow2 e).

(** [a / b] on two [int]s, [b] not zero: the quotient correctly rounded;
    [None] when it is beyond the largest float. *)
Definition fdiv (a b : Z) : option float :=
  if OVERFLOW * Z.abs b <=? Z.abs a then None
  else
    Some (Finite (xorb (a <? 0) (b <? 0))
            (nearest (Z.abs a # Z.to_pos (Z.abs b)))).

(** [x * k] for a float [x] and a positive [int] [k] that is a float
    itself (below [2^53]); a product beyond the largest float is
    infinite. *)
Definition fmul (x : float) (k : Z) : float :=
  match x with
  | Finite negative m =>
      if Qle_bool (inject_Z OVERFLOW) (m * inject_Z k) then Infinite negative
      else Finite negative (nearest (m * inject_Z k))
  | Infinite negative => Infinite negative
  end.

End Floating.

(** ** The completion marker *)

Module Marker.
Import Text.

(** The text tested by [in] on line 27. *)
Definition MARKER_TEXT : string := "TOTAL_TIME_MS:".

(** The literal part of the pattern [r"TOTAL_TIME_MS: (\d+)"]. *)
Definition PATTERN_PREFIX : string := "TOTAL_TIME_MS: ".

(** [s] minus the literal prefix [p], when it starts with it. *)
Fixpoint strip (p s : string) : option string :=
  match p, s with
  | EmptyString, _ => Some s
  | String _ _, EmptyString => None
  | String a p', String b s' => if Ascii.eqb a b then strip p' s' else None
  end.

(** The pattern matched at the head of [s]: group 1 when it matches.  The
    pattern ends in the greedy [\d+], so group 1 is the whole digit run. *)
Definition match_here (s : string) : option string :=
  match strip PATTERN_PREFIX s with
  | Some rest =>
      match digit_run rest with
      | EmptyString => None
      | g => Some g
      end
  | None => None
  end.

(** [re.search(r"TOTAL_TIME_MS: (\d+)", s)]: the leftmost match; the
    result is [match.group(1)]. *)
Fixpoint re_search (s : string) : option string :=
  match match_here s with
  | Some g => Some g
  | None =>
      match s with
      | EmptyString => None
      | String _ s' => re_search s'
      end
  end.

(** The words of the specification: an occurrence of
    [TOTAL_TIME_MS: <integer>] at offset [i] of the text. *)
Definition occurs_at (s : string) (i : nat) : bool :=
  String.eqb (substring i 15 s) "TOTAL_TIME_MS: " &&
  match get (i + 15) s with
  | Some d => isdigit d
  | None => false
  end.

Definition first_occurrence (s : string) (i : nat) : Prop :=
  occurs_at s i = true /\ forall j, (j < i)%nat -> occurs_at s j = false.

Definition no_occurrence (s : string) : Prop :=
  forall j, occurs_at s j = false.

(** The integer written at offset [j]. *)
Definition integer_at (s : string) (j : nat) : Z :=
  decimal (digit_run (tail_from j s)).

End Marker.

(** ** The world outside the program *)

Module Runtime.
Import Text Floating.

(** A mapping of environment variables: [os.environ], and every [dict]
    made from it. *)
Abbreviation environment := (gmap string string).

(** What [print] writes.  [render] gives the text of each line. *)
Inductive line :=
| Announce (profile : string) (consumers work_duration : Z)
| TimeoutNotice (profile : string)
| Header
| Rule
| Row (count lua_time red_time : Z) (diff : float).

(** One [subprocess.run(argv, env=env, ...)]: the command line and the
    content of the mapping at the time of the call. *)
Record call := { argv : list string; call_env : environment }.

Inductive event :=
| Ran (c : call)
| Slept (ms : Z)
| Printed (l : line).

(** Why [subprocess.run] raised instead of returning: the executable could
    not be started, or ([text=True]) its output could not be decoded. *)
Inductive spawn_error := NotFound | NotPermitted | Undecodable.

Inductive exn :=
| SpawnError (e : spawn_error)
| ValueError
| ZeroDivisionError
| OverflowError.

(** What a backend invocation gives back.  A command that ran is
    [Completed], whatever its exit status: no call of the program passes
    [check=True]. *)
Inductive response :=
| Completed (returncode : Z) (stdout : string)
| Failed (e : spawn_error).

Record reply := { took : Z; resp : response }.

(** The outside, as a function of the history so far: the backend's
    answer to a call and the time it takes, and how long a sleep of the
    requested length really lasts. *)
Record platform := {
  backend : list event -> call -> reply;
  nap : list event -> Z -> Z
}.

(** [dict] objects live in a store; a variable holds a reference.
    [os.environ] is one object, each [copy()] allocates another. *)
Inductive dictref := OsEnviron | Local (n : nat).

Record world := {
  environ : environment;
  heap : list environment;
  clock : Z;
  trace : list event
}.

Definition deref (r : dictref) (w : world) : environment :=
  match r with
  | OsEnviron => environ w
  | Local n => default ∅ (heap w !! n)
  end.

Definition store (r : dictref) (k v : string) (w : world) : world :=
  match r with
  | OsEnviron =>
      {| environ := <[k := v]> (environ w); heap := heap w;
         clock := clock w; trace := trace w |}
  | Local n =>
      {| environ := environ w; heap := alter (<[k := v]>) n (heap w);
         clock := clock w; trace := trace w |}
  end.

Definition alloc (d : environment) (w : world) : world :=
  {| environ := environ w; heap := heap w ++ [d];
     clock := clock w; trace := trace w |}.

Definition record (e : event) (w : world) : world :=
  {| environ := environ w; heap := heap w;
     clock := clock w; trace := trace w ++ [e] |}.

Definition advance (d : Z) (w : world) : world :=
  {| environ := environ w; heap := heap w;
     clock := clock w + d; trace := trace w |}.

(** How a computation ends: it returns, it raises, or the model's loop
    budget runs out.  Each carries the world reached. *)
Inductive outcome (A : Type) :=
| Ret (a : A) (w : world)
| Exc (e : exn) (w : world)
| Fuel (w : world).
Arguments Ret {A} a w.
Arguments Exc {A} e w.
Arguments Fuel {A} w.

Definition final {A} (o : outcome A) : world :=
  match o with
  | Ret _ w | Exc _ w | Fuel w => w
  end.

Definition M (A : Type) : Type := world -> outcome A.

Definition ret {A} (a : A) : M A := fun w => Ret a w.

Definition raise {A} (e : exn) : M A := fun w => Exc e w.

Definition out_of_fuel {A} : M A := fun w => Fuel w.

Definition bind {A B} (m : M A) (k : A -> M B) : M B :=
  fun w =>
    match m w with
    | Ret a w' => k a w'
    | Exc e w' => Exc e w'
    | Fuel w' => Fuel w'
    end.

Notation "'let*' x ':=' m 'in' k" := (bind m (fun x => k))
  (at level 10, x name, m at level 100, k at level 200).
Notation "m ';;;' k" := (bind m (fun _ => k))
  (at level 100, k at level 200, right associativity).

(** [os.environ.copy()] *)
Definition os_environ_copy : M dictref :=
  fun w => Ret (Local (length (heap w))) (alloc (environ w) w).

(** [d[k] = v] *)
Definition setitem (d : dictref) (k v : string) : M unit :=
  fun w => Ret tt (store d k v w).

(** [print(...)] *)
Definition print (l : line) : M unit :=
  fun w => Ret tt (record (Printed l) w).

(** [time.time()] *)
Definition time_time : M Z := fun w => Ret (clock w) w.

Section Platform.
Variable P : platform.

(** The world after a backend invocation: the call is on the trace and
    the clock has moved by the time it took. *)
Definition ran (c : call) (w : world) : world :=
  advance (took (backend P (trace w) c)) (record (Ran c) w).

(** The world after a sleep. *)
Definition slept (ms : Z) (w : world) : world :=
  advance (nap P (trace w) ms) (record (Slept ms) w).

(** [subprocess.run(argv, env=env, capture_output=True)]; the result is
    the captured [stdout]. *)
Definition subprocess_run (args : list string) (env : dictref) : M string :=
  fun w =>
    let c := {| argv := args; call_env := deref env w |} in
    match resp (backend P (trace w) c) with
    | Completed _ out => Ret out (ran c w)
    | Failed e => Exc (SpawnError e) (ran c w)
    end.

(** [time.sleep(secs)] *)
Definition time_sleep (ms : Z) : M unit :=
  fun w => Ret tt (slept ms w).

End Platform.

(** The most digits [int] takes from a text (the interpreter's default
    limit; leading zeros count). *)
Definition MAX_STR_DIGITS : nat := 4300.

(** [int(s)] on the text of a group: a non-empty run of at most
    [MAX_STR_DIGITS] digits is a number, anything else is a [ValueError].
    (The signs, blanks and underscores that [int] also accepts cannot occur
    in a group of [\d+].) *)
Definition py_int (s : string) : M Z :=
  match s with
  | EmptyString => raise ValueError
  | _ =>
      if all_digits s then
        if (String.length s <=? MAX_STR_DIGITS)%nat then ret (decimal s)
        else raise ValueError
      else raise ValueError
  end.

(** [a / b] on two [int]s. *)
Definition truediv (a b : Z) : M float :=
  if b =? 0 then raise ZeroDivisionError
  else
    match fdiv a b with
    | Some q => ret q
    | None => raise OverflowError
    end.

Definition two_digits (n : Z) : string :=
  if n <? 10 then "0" +:+ str n else str n.

(** [f"{x:.2f}"]: the value of the float, rounded to two decimals, ties
    to even. *)
Definition fixed2 (x : float) : string :=
  match x with
  | Finite negative q =>
      let m := round_half_even (q * 100)%Q in
      (if negative then "-" else "") +:+
      str (m / 100) +:+ "." +:+ two_digits (m mod 100)
  | Infinite negative => (if negative then "-" else "") +:+ "inf"
  end.

Definition render (l : line) : string :=
  match l with
  | Announce profile consumers work_duration =>
      "Running benchmark for " +:+ profile +:+ " with " +:+ str consumers
      +:+ " consumers and " +:+ str work_duration +:+ "ms work..."
  | TimeoutNotice profile => "Timeout waiting for " +:+ profile
  | Header =>
      ljust 10 "Consumers" +:+ " | " +:+ ljust 10 "Lua (ms)" +:+ " | "
      +:+ ljust 15 "Redlock (ms)" +:+ " | " +:+ ljust 10 "Diff (%)"
  | Rule => dashes 55
  | Row count lua_time red_time diff =>
      ljust 10 (str count) +:+ " | " +:+ ljust 10 (str lua_time) +:+ " | "
      +:+ ljust 15 (str red_time) +:+ " | " +:+ rjust 8 (fixed2 diff) +:+ "%"
  end.

(** Projections of a trace. *)
Definition calls (t : list event) : list call :=
  omap (fun e => match e with Ran c => Some c | _ => None end) t.

Definition printed (t : list event) : list line :=
  omap (fun e => match e with Printed l => Some l | _ => None end) t.

End Runtime.

(** ** The program *)

Module Benchmark.
Import Text Floating Marker Runtime.

(** The three command lines. *)
Definition down_args (profile : string) : list string :=
  ["docker"; "compose"; "--profile"; profile; "down"].

Definition up_args (profile : string) : list string :=
  ["docker"; "compose"; "--profile"; profile; "up"; "--build"; "-d"].

Definition logs_args (service_name : string) : list string :=
  ["docker"; "compose"; "logs"; service_name].

(** Lines 27-31: what one fetched text yields.  [Some v] is the [break]
    with [total_time_ms = v]; [None] falls through to the timeout test. *)
Definition scan_logs (stdout : string) : M (option Z) :=
  if contains MARKER_TEXT stdout then
    match re_search stdout with
    | Some g => let* v := py_int g in ret (Some v)
    | None => ret None
    end
  else ret None.

(** How one turn of [while True] ends. *)
Inductive step := Break (total_time_ms : Z) | Continue.

Section Program.
Variable P : platform.

(** Lines 26-36: one turn of the loop. *)
Definition poll_once (profile service_name : string) (env : dictref)
    (start_time total_time_ms : Z) : M step :=
  let* stdout := subprocess_run P (logs_args service_name) env in
  let* found := scan_logs stdout in
  match found with
  | Some v => ret (Break v)
  | None =>
      let* now := time_time in
      if 60000 <? now - start_time then
        print (TimeoutNotice profile) ;;;
        ret (Break total_time_ms)
      else
        time_sleep P 1000 ;;;
        ret Continue
  end.

(** Lines 25-36: the loop; its value is [total_time_ms] at the [break].
    [fuel] bounds the number of turns the model follows. *)
Fixpoint poll (fuel : nat) (profile service_name : string) (env : dictref)
    (start_time total_time_ms : Z) : M Z :=
  match fuel with
  | O => out_of_fuel
  | S fuel' =>
      let* s := poll_once profile service_name env start_time total_time_ms in
      match s with
      | Break v => ret v
      | Continue => poll fuel' profile service_name env start_time total_time_ms
      end
  end.

Definition run_benchmark (fuel : nat) (profile : string)
    (consumers work_duration : Z) : M Z :=
  print (Announce profile consumers work_duration) ;;;
  let* env := os_environ_copy in
  setitem env "NUM_CONSUMERS" (str consumers) ;;;
  setitem env "WORK_DURATION" (str work_duration) ;;;
  subprocess_run P (down_args profile) env ;;;
  subprocess_run P (up_args profile) env ;;;
  let service_name := "app-" +:+ profile in
  let* start_time := time_time in
  let* total_time_ms := poll fuel profile service_name env start_time 0 in
  subprocess_run P (down_args profile) env ;;;
  ret total_time_ms.

(** Line 52.  The [0] of the [else] branch is an [int]; [.2f] prints it
    as it prints the float 0.0, which stands for it here. *)
Definition percent_diff (lua_time red_time : Z) : M float :=
  if 0 <? lua_time then
    let* q := truediv (red_time - lua_time) lua_time in
    ret (fmul q 100)
  else ret zero.

(** Lines 48-53: the [for] loop over the consumer counts. *)
Fixpoint sweep (fuel : nat) (consumer_counts : list Z) (work_duration : Z)
    : M unit :=
  match consumer_counts with
  | [] => ret tt
  | count :: rest =>
      let* lua_time := run_benchmark fuel "lua" count work_duration in
      let* red_time := run_benchmark fuel "redlock" count work_duration in
      let* diff := percent_diff lua_time red_time in
      print (Row count lua_time red_time diff) ;;;
      sweep fuel rest work_duration
  end.

Definition main (fuel : nat) : M unit :=
  let consumer_counts := [5; 10; 100; 200] in
  let work_duration := 50 in
  print Header ;;;
  print Rule ;;;
  sweep fuel consumer_counts work_duration.

End Program.

(** The mapping every call of a trial is given. *)
Definition trial_env (host : environment) (consumers work_duration : Z)
    : environment :=
  <["WORK_DURATION" := str work_duration]>
    (<["NUM_CONSUMERS" := str consumers]> host).

Definition down_call (host : environment) (profile : string)
    (consumers work_duration : Z) : call :=
  {| argv := down_args profile;
     call_env := trial_env host consumers work_duration |}.

Definition up_call (host : environment) (profile : string)
    (consumers work_duration : Z) : call :=
  {| argv := up_args profile;
     call_env := trial_env host consumers work_duration |}.

Definition logs_call (host : environment) (profile : string)
    (consumers work_duration : Z) : call :=
  {| argv := logs_args ("app-" +:+ profile);
     call_env := trial_env host consumers work_duration |}.

End Benchmark.

(** ** The protocol, in the words of the specification *)

Module Protocol.
Import Text Floating Marker Runtime Benchmark.

(** [n] turns of the loop that found nothing and slept. *)
Definition turns (c : call) (n : nat) : list event :=
  concat (replicate n [Ran c; Slept 1000]).

(** The events of a polling phase that ended: some fruitless turns, then
    a fetch that either shows the marker or is followed by the timeout
    notice. *)
Inductive polling_events (c : call) (profile : string) : list event -> Prop :=
| polled_found n :
    polling_events c profile (turns c n ++ [Ran c])
| polled_timeout n :
    polling_events c profile
      (turns c n ++ [Ran c; Printed (TimeoutNotice profile)]).

(** The events of a trial that returned: announce, reset, start, poll,
    teardown. *)
Definition trial_events (host : environment) (profile : string)
    (consumers work_duration : Z) (evs : list event) : Prop :=
  exists polling,
    polling_events (logs_call host profile consumers work_duration)
      profile polling /\
    evs =
      [Printed (Announce profile consumers work_duration);
       Ran (down_call host profile consumers work_duration);
       Ran (up_call host profile consumers work_duration)]
      ++ polling
      ++ [Ran (down_call host profile consumers work_duration)].

(** The events of a sweep that returned: for each count, in the order of
    the list, the Lua trial, then the Redlock trial, then the row. *)
Inductive sweep_events (host : environment) (work_duration : Z)
    : list Z -> list event -> Prop :=
| swept_nil : sweep_events host work_duration [] []
| swept_cons count rest lua red lua_time red_time diff evs :
    trial_events host "lua" count work_duration lua ->
    trial_events host "redlock" count work_duration red ->
    sweep_events host work_duration rest evs ->
    sweep_events host work_duration (count :: rest)
      (lua ++ red ++ [Printed (Row count lua_time red_time diff)] ++ evs).

(** The calls that follow the start of the environment. *)
Fixpoint after_start (profile : string) (cs : list call) : list call :=
  match cs with
  | [] => []
  | c :: cs' =>
      if bool_decide (argv c = up_args profile) then cs'
      else after_start profile cs'
  end.

(** How many times the environment is torn down after it was started. *)
Definition teardowns (profile : string) (evs : list event) : nat :=
  length (filter (fun c => argv c = down_args profile)
            (after_start profile (calls evs))).

(** The counts of the rows printed, in the order printed. *)
Definition row_counts (evs : list event) : list Z :=
  omap (fun e => match e with Printed (Row c _ _ _) => Some c | _ => None end)
    evs.

(** The relative difference of a row, as the specification words it, in
    the arithmetic of floats. *)
Definition row_ok (e : event) : Prop :=
  match e with
  | Printed (Row _ luaResult redlockResult percentDiff) =>
      0 <= luaResult /\ 0 <= redlockResult /\
      (0 < luaResult ->
       exists quotient,
         fdiv (redlockResult - luaResult) luaResult = Some quotient /\
         percentDiff = fmul quotient 100) /\
      (luaResult = 0 -> percentDiff = zero)
  | _ => True
  end.

Definition not_row (e : event) : Prop :=
  match e with
  | Printed (Row _ _ _ _) => False
  | _ => True
  end.

(** The world when lines 7-12 are done: the announcement is printed and
    the copy of the environment, at [Local (length (heap w))], has the two
    variables. *)
Definition prepared (profile : string) (consumers work_duration : Z)
    (w : world) : world :=
  let env := Local (length (heap w)) in
  store env "WORK_DURATION" (str work_duration)
    (store env "NUM_CONSUMERS" (str consumers)
       (alloc (environ w)
          (record (Printed (Announce profile consumers work_duration)) w))).

(** What is appended to the trace of [w] on the way to [w']. *)
Definition since (w w' : world) : list event :=
  drop (length (trace w)) (trace w').

(** The world after one fetch of the logs of [service_name]. *)
Definition fetched (P : platform) (service_name : string) (env : dictref)
    (w : world) : world :=
  ran P {| argv := logs_args service_name; call_env := deref env w |} w.

(** Every call among the events was given the mapping [E]. *)
Definition given (E : environment) (e : event) : Prop :=
  match e with
  | Ran c => call_env c = E
  | _ => True
  end.

(** Assumptions on the outside. *)

(** No invocation raises: every command is started and its output decoded. *)
Definition always_completes (P : platform) : Prop :=
  forall h c, exists rc out, resp (backend P h c) = Completed rc out.

(** The clock does not run backwards during a call, and a sleep lasts at
    least as long as asked. *)
Definition steady_clock (P : platform) : Prop :=
  (forall h c, 0 <= took (backend P h c)) /\
  (forall h ms, ms <= nap P h ms).

(** The marker is in no text ever fetched from the logs of the service. *)
Definition never_marked (P : platform) (service_name : string) : Prop :=
  forall h c rc out,
    resp (backend P h c) = Completed rc out ->
    argv c = logs_args service_name ->
    no_occurrence out.

(** A fetch lasts at most [d] and a sleep oversleeps by at most [j]. *)
Definition bounded_delays (P : platform) (d j : Z) : Prop :=
  (forall h c, took (backend P h c) <= d) /\
  (forall h ms, nap P h ms <= ms + j).

(** A fetched text that has the marker text but no integer after it. *)
Definition malformed (s : string) : Prop :=
  contains MARKER_TEXT s = true /\ no_occurrence s.

(** Every text fetched from the logs of the service is malformed. *)
Definition always_malformed (P : platform) (service_name : string) : Prop :=
  forall h c rc out,
    resp (backend P h c) = Completed rc out ->
    argv c = logs_args service_name ->
    malformed out.

(** The length of the run of digits at offset [j]. *)
Definition run_length (s : string) (j : nat) : nat :=
  String.length (digit_run (tail_from j s)).

(** The log texts of the service show the integer [v] from the first
    fetch on, written with at most 4300 digits. *)
Definition reports (P : platform) (service_name : string) (v : Z) : Prop :=
  forall h c, argv c = logs_args service_name ->
    exists rc out i,
      resp (backend P h c) = Completed rc out /\
      first_occurrence out i /\
      (run_length out (i + 15) <= 4300)%nat /\
      integer_at out (i + 15) = v.

(** Why a trial raises [e] at the call [c] made after the history [h]: the
    invocation itself raised, or it was a fetch whose text has, at the
    first occurrence of the marker, more digits than [int] takes. *)
Definition raised_by (P : platform) (h : list event) (c : call) (e : exn)
    : Prop :=
  (exists err, e = SpawnError err /\ resp (backend P h c) = Failed err) \/
  (e = ValueError /\
   exists rc out i,
     resp (backend P h c) = Completed rc out /\
     first_occurrence out i /\
     (4300 < run_length out (i + 15))%nat).

(** The loop of a trial ended after the events [polling], made after the
    history [h]: its last fetch showed the marker with a number that [int]
    takes, or the timeout notice was printed. *)
Definition loop_ended (P : platform) (h : list event) (c : call)
    (profile : string) (polling : list event) : Prop :=
  exists n,
    (polling = turns c n ++ [Ran c] /\
     exists rc out i,
       resp (backend P (h ++ turns c n) c) = Completed rc out /\
       first_occurrence out i /\
       (run_length out (i + 15) <= 4300)%nat)
    \/ polling = turns c n ++ [Ran c; Printed (TimeoutNotice profile)].

(** [v] is a time read from the logs: the integer at the first occurrence
    of the marker in a text the backend returned, written with at most 4300
    digits. *)
Definition read_from_logs (P : platform) (v : Z) : Prop :=
  exists h c rc out i,
    resp (backend P h c) = Completed rc out /\
    first_occurrence out i /\
    (run_length out (i + 15) <= 4300)%nat /\
    integer_at out (i + 15) = v.

(** Why a sweep raises [e]: a call of one of its trials did, or [e] is the
    [OverflowError] of the division of line 52, on two times read from the
    logs whose quotient is beyond the largest float. *)
Definition sweep_raises (P : platform) (e : exn) : Prop :=
  (exists h c, raised_by P h c e) \/
  (e = OverflowError /\
   exists lua_time red_time,
     read_from_logs P lua_time /\ read_from_logs P red_time /\
     0 < lua_time /\ OVERFLOW * lua_time <= red_time - lua_time).

(** Lines 28-31 without the test of line 27: the search alone. *)
Definition scan_by_search (stdout : string) : M (option Z) :=
  match re_search stdout with
  | Some g => let* v := py_int g in ret (Some v)
  | None => ret None
  end.

(** The times the backend shows are modest: at the first occurrence of
    the marker in any text it returns, a number of at most 4300 digits,
    below [2^1023].  Such times [int] reads, and their quotients are
    floats. *)
Definition modest (P : platform) : Prop :=
  forall h c rc out i,
    resp (backend P h c) = Completed rc out ->
    first_occurrence out i ->
    (run_length out (i + 15) <= 4300)%nat /\
    integer_at out (i + 15) < 2 ^ 1023.

End Protocol.

(** ** Three sentences of the specification, as they are stated *)

Module Stated.
Import Text Floating Marker Runtime Benchmark Protocol.

(** Teardown-always: however the trial ends, by returning or by raising,
    the environment was torn down exactly once after it was started. *)
Definition teardown_always (P : platform) (fuel : nat) (profile : string)
    (consumers work_duration : Z) (w : world) : Prop :=
  match run_benchmark P fuel profile consumers work_duration w with
  | Ret _ w' | Exc _ w' => teardowns profile (since w w') = 1%nat
  | Fuel _ => True
  end.

(** Timeout bound: if the marker never appears, the loop is over within
    61 seconds of its start. *)
Definition timeout_bound (P : platform) (profile : string) (env : dictref)
    (w : world) : Prop :=
  never_marked P ("app-" +:+ profile) ->
  forall fuel v w',
    poll P fuel profile ("app-" +:+ profile) env (clock w) 0 w = Ret v w' ->
    clock w' - clock w <= 61000.

(** Malformed completion line: the trial fails hard. *)
Definition malformed_fails_hard (P : platform) (fuel : nat) (profile : string)
    (consumers work_duration : Z) (w : world) : Prop :=
  always_malformed P ("app-" +:+ profile) ->
  exists e w',
    run_benchmark P fuel profile consumers work_duration w = Exc e w'.

End Stated.

(** ** Concrete worlds *)

Module Scenarios.
Import Text Floating Marker Runtime Benchmark Protocol.

Definition host : world :=
  {| environ := {[ "PATH" := "/usr/bin" ]}; heap := []; clock := 0;
     trace := [] |}.

Definition is_logs (c : call) : bool :=
  String.eqb (nth 2 (argv c) "") "logs".

Definition service (c : call) : string := nth 3 (argv c) "".

(** Both services have finished by the first fetch. *)
Definition quick : platform :=
  {| backend := fun _ c =>
       {| took := 250;
          resp :=
            if is_logs c then
              if String.eqb (service c) "app-lua"
              then Completed 0 "app-lua-1  | TOTAL_TIME_MS: 120"
              else Completed 0 "app-redlock-1  | TOTAL_TIME_MS: 300"
            else Completed 0 "" |};
     nap := fun _ ms => ms |}.

(** The daemon is unreachable: every command exits with status 1 and
    prints nothing. *)
Definition silent : platform :=
  {| backend := fun _ _ => {| took := 0; resp := Completed 1 "" |};
     nap := fun _ ms => ms |}.

(** Nothing is ever reported and every command takes two seconds. *)
Definition sluggish : platform :=
  {| backend := fun _ _ => {| took := 2000; resp := Completed 0 "" |};
     nap := fun _ ms => ms |}.

(** The logs cannot be decoded. *)
Definition crashing : platform :=
  {| backend := fun _ c =>
       {| took := 100;
          resp := if is_logs c then Failed Undecodable else Completed 0 "" |};
     nap := fun _ ms => ms |}.

(** The service prints the marker text without a number. *)
Definition garbled : platform :=
  {| backend := fun _ c =>
       {| took := 0;
          resp :=
            if is_logs c then Completed 0 "TOTAL_TIME_MS: abc"
            else Completed 0 "" |};
     nap := fun _ ms => ms |}.

(** The first fetch takes a minute and a half, and shows the marker. *)
Definition late : platform :=
  {| backend := fun _ c =>
       {| took := if is_logs c then 90000 else 500;
          resp :=
            if is_logs c then Completed 0 "TOTAL_TIME_MS: 1234"
            else Completed 0 "" |};
     nap := fun _ ms => ms |}.

(** The Lua service never reports (its log command exits with status 1
    and prints nothing); the Redlock service has finished by the first
    fetch. *)
Definition lua_down : platform :=
  {| backend := fun _ c =>
       {| took := 250;
          resp :=
            if is_logs c then
              if String.eqb (service c) "app-lua"
              then Completed 1 ""
              else Completed 0 "app-redlock-1  | TOTAL_TIME_MS: 300"
            else Completed 0 "" |};
     nap := fun _ ms => ms |}.

(** [n] times the digit [d]. *)
Fixpoint digits (d : ascii) (n : nat) : string :=
  match n with
  | O => EmptyString
  | S n' => String d (digits d n')
  end.

(** The service logs a number of 4301 digits. *)
Definition overlong : platform :=
  {| backend := fun _ c =>
       {| took := 250;
          resp :=
            if is_logs c
            then Completed 0 ("TOTAL_TIME_MS: " +:+ digits "9" 4301)
            else Completed 0 "" |};
     nap := fun _ ms => ms |}.

(** Lua reports one millisecond and Redlock [10^400]. *)
Definition lopsided : platform :=
  {| backend := fun _ c =>
       {| took := 250;
          resp :=
            if is_logs c then
              if String.eqb (service c) "app-lua"
              then Completed 0 "TOTAL_TIME_MS: 1"
              else Completed 0 ("TOTAL_TIME_MS: 1" +:+ digits "0" 400)
            else Completed 0 "" |};
     nap := fun _ ms => ms |}.

End Scenarios.

(** ** Measures of a run, and two more worlds *)

Module Measures.
Import Text Floating Marker Runtime Benchmark Protocol.

(** The sleeps asked for, in order. *)
Definition naps (evs : list event) : list Z :=
  omap (fun e => match e with Slept ms => Some ms | _ => None end) evs.

(** On the way from [w] to [w'] there are at most [a] backend invocations
    and at most [b] sleeps, each asked to last one second. *)
Definition within (a b : nat) (w w' : world) : Prop :=
  exists evs,
    trace w' = trace w ++ evs /\
    (length (calls evs) <= a)%nat /\
    (length (naps evs) <= b)%nat /\
    Forall (fun ms => ms = 1000) (naps evs).

(** A line feed. *)
Definition NL : string := String (ascii_of_nat 10) EmptyString.

(** The clock makes no progress: no call and no sleep moves it forward. *)
Definition clock_stalls (P : platform) : Prop :=
  (forall h c, took (backend P h c) <= 0) /\
  (forall h ms, nap P h ms <= 0).

(** Every call among the events carries the work duration of the sweep
    and one of its consumer counts. *)
Definition configured (work_duration : Z) (consumer_counts : list Z)
    (e : event) : Prop :=
  match e with
  | Ran c =>
      call_env c !! "WORK_DURATION" = Some (str work_duration) /\
      exists n, In n consumer_counts /\
        call_env c !! "NUM_CONSUMERS" = Some (str n)
  | _ => True
  end.

(** The wall clock is held still while the program runs, and nothing is
    ever reported. *)
Definition stalled : platform :=
  {| backend := fun _ _ => {| took := 0; resp := Completed 0 "" |};
     nap := fun _ _ => 0 |}.

(** Commands take 300 ms, a sleep oversleeps by 5 ms, nothing is ever
    reported. *)
Definition jittery : platform :=
  {| backend := fun _ _ => {| took := 300; resp := Completed 0 "" |};
     nap := fun _ ms => ms + 5 |}.

End Measures.

(** ** Facts: the search for the marker *)

Module MarkerFacts.
Import Text Floating Marker Runtime Benchmark Protocol.

Lemma re_search_unfold s :
  re_search s =
  match match_here s with
  | Some g => Some g
  | None => match s with EmptyString => None | String _ s' => re_search s' end
  end.
Proof. destruct s; reflexivity. Qed.

Lemma strip_spec p s :
  strip p s =
  if String.eqb (substring 0 (String.length p) s) p
  then Some (tail_from (String.length p) s) else None.
Proof.
  revert s. induction p as [|a p IH]; intros s.
  - destruct s; reflexivity.
  - destruct s as [|b s]; [reflexivity|].
    cbn [strip String.length substring tail_from String.eqb].
    rewrite (Ascii.eqb_sym b a). destruct (Ascii.eqb a b); [apply IH | reflexivity].
Qed.

Lemma get_drop n s : get n s = get 0 (tail_from n s).
Proof.
  revert s. induction n as [|n IH]; intros [|c s]; try reflexivity.
  cbn [get tail_from]. apply IH.
Qed.

Lemma digit_run_head s :
  digit_run s = EmptyString <->
  match get 0 s with Some d => isdigit d | None => false end = false.
Proof.
  destruct s as [|c s]; cbn; [tauto|].
  destruct (isdigit c); split; intros H; congruence.
Qed.

Lemma match_here_occurs s :
  match_here s =
  if occurs_at s 0 then Some (digit_run (tail_from 15 s)) else None.
Proof.
  unfold match_here, occurs_at. rewrite strip_spec.
  change (String.length PATTERN_PREFIX) with 15%nat.
  change PATTERN_PREFIX with "TOTAL_TIME_MS: ".
  destruct (String.eqb _ _); [|reflexivity].
  cbn [andb]. change (0 + 15)%nat with 15%nat. rewrite (get_drop 15).
  pose proof (digit_run_head (tail_from 15 s)) as Hd.
  destruct (digit_run (tail_from 15 s)) eqn:Hr.
  - destruct Hd as [Hd _]. rewrite (Hd eq_refl). reflexivity.
  - destruct (match get 0 (tail_from 15 s) with Some d => isdigit d | None => false end);
      [reflexivity|]. destruct Hd as [_ Hd]. discriminate (Hd eq_refl).
Qed.

Lemma occurs_at_tail a s i : occurs_at (String a s) (S i) = occurs_at s i.
Proof. reflexivity. Qed.

Lemma occurs_at_empty i : occurs_at EmptyString i = false.
Proof. destruct i; reflexivity. Qed.

Lemma re_search_first s i :
  first_occurrence s i -> re_search s = Some (digit_run (tail_from (i + 15) s)).
Proof.
  revert s. induction i as [|i IH]; intros s [Hi Hlt].
  - rewrite re_search_unfold, match_here_occurs, Hi. reflexivity.
  - destruct s as [|a s]; [rewrite occurs_at_empty in Hi; discriminate|].
    rewrite re_search_unfold, match_here_occurs, (Hlt 0%nat) by lia.
    rewrite occurs_at_tail in Hi. cbn [Nat.add tail_from]. apply IH. split; [exact Hi|].
    intros j Hj. rewrite <- (occurs_at_tail a). apply Hlt. lia.
Qed.

Lemma re_search_none s : no_occurrence s -> re_search s = None.
Proof.
  induction s as [|a s IH]; intros H.
  - reflexivity.
  - rewrite re_search_unfold, match_here_occurs, (H 0%nat). apply IH.
    intros j. rewrite <- (occurs_at_tail a). apply H.
Qed.

Lemma strip_startswith p q s r :
  strip (p +:+ q) s = Some r -> startswith p s = true.
Proof.
  revert s. induction p as [|a p IH]; intros s H.
  - destruct s; reflexivity.
  - destruct s as [|b s]; simpl in H |- *; [discriminate|].
    destruct (Ascii.eqb a b); [|discriminate]. simpl. eauto.
Qed.

Lemma match_here_contains s g :
  match_here s = Some g -> startswith MARKER_TEXT s = true.
Proof.
  unfold match_here. destruct (strip PATTERN_PREFIX s) as [r|] eqn:Hs; [|discriminate].
  intros _. apply (strip_startswith MARKER_TEXT " " s r). exact Hs.
Qed.

Lemma contains_unfold p s :
  contains p s = startswith p s ||
    match s with EmptyString => false | String _ s' => contains p s' end.
Proof. destruct s; reflexivity. Qed.

Lemma re_search_contains s g :
  re_search s = Some g -> contains MARKER_TEXT s = true.
Proof.
  induction s as [|a s IH]; rewrite re_search_unfold, contains_unfold;
    destruct (match_here _) as [g'|] eqn:Hm; intros H; try discriminate;
    try (rewrite (match_here_contains _ _ Hm); reflexivity).
  rewrite (IH H). apply orb_true_r.
Qed.

Lemma all_digits_run s : all_digits (digit_run s) = true.
Proof.
  induction s as [|c s IH]; [reflexivity|]. cbn.
  destruct (isdigit c) eqn:Hc; [|reflexivity]. cbn. rewrite Hc. exact IH.
Qed.

Lemma match_here_group s g :
  match_here s = Some g -> g <> EmptyString /\ all_digits g = true.
Proof.
  unfold match_here. destruct (strip _ _) as [r|]; [|discriminate].
  pose proof (all_digits_run r) as Hd.
  destruct (digit_run r) eqn:Hr; [discriminate|].
  intros [= <-]. split; [discriminate | exact Hd].
Qed.

Lemma re_search_group s g :
  re_search s = Some g -> g <> EmptyString /\ all_digits g = true.
Proof.
  induction s as [|a s IH]; rewrite re_search_unfold;
    destruct (match_here _) as [g'|] eqn:Hm; intros H; try discriminate;
    try (injection H as <-; eapply match_here_group; eassumption).
  auto.
Qed.

Lemma py_int_group g w :
  g <> EmptyString -> all_digits g = true ->
  py_int g w =
  if (String.length g <=? MAX_STR_DIGITS)%nat then Ret (decimal g) w
  else Exc ValueError w.
Proof.
  intros Hne Hd. unfold py_int. destruct g; [congruence|]. rewrite Hd.
  destruct (_ <=? _)%nat; reflexivity.
Qed.

(** What lines 27-31 yield, from the search alone. *)
Lemma scan_logs_search s w :
  scan_logs s w =
  match re_search s with
  | Some g =>
      if (String.length g <=? MAX_STR_DIGITS)%nat
      then Ret (Some (decimal g)) w else Exc ValueError w
  | None => Ret None w
  end.
Proof.
  unfold scan_logs. destruct (re_search s) as [g|] eqn:Hs.
  - rewrite (re_search_contains _ _ Hs).
    destruct (re_search_group _ _ Hs) as [Hne Hd].
    unfold bind. rewrite (py_int_group _ _ Hne Hd).
    destruct (_ <=? _)%nat; reflexivity.
  - destruct (contains _ _); reflexivity.
Qed.

(** A match of the search is the first occurrence of the marker. *)
Lemma re_search_occurrence s g :
  re_search s = Some g ->
  exists i, first_occurrence s i /\ g = digit_run (tail_from (i + 15) s).
Proof.
  induction s as [|a s IH]; intros H; rewrite re_search_unfold, match_here_occurs in H.
  - rewrite occurs_at_empty in H. discriminate.
  - destruct (occurs_at (String a s) 0) eqn:H0.
    + injection H as <-. exists 0%nat. split; [|reflexivity].
      split; [exact H0|]. intros j Hj. lia.
    + destruct (IH H) as (i & [Hi Hlt] & Hg). exists (S i). split; [|exact Hg].
      split; [rewrite occurs_at_tail; exact Hi|].
      intros [|j] Hj; [exact H0|]. rewrite occurs_at_tail. apply Hlt. lia.
Qed.

Lemma digit_value_bounds c : isdigit c = true -> 0 <= digit_value c <= 9.
Proof.
  unfold isdigit, digit_value. intros H. apply andb_true_iff in H as [H1 H2].
  apply Nat.leb_le in H1, H2. lia.
Qed.

Lemma decimal_from_nonneg s acc :
  all_digits s = true -> 0 <= acc -> 0 <= decimal_from acc s.
Proof.
  revert acc. induction s as [|c s IH]; intros acc H Hacc; [exact Hacc|].
  cbn in H. apply andb_true_iff in H as [Hc Hs]. cbn.
  apply IH; [exact Hs|]. pose proof (digit_value_bounds c Hc). lia.
Qed.

(** [decimal] is positional notation: a further digit multiplies by ten. *)
Lemma decimal_from_app acc s t :
  decimal_from acc (s +:+ t) = decimal_from (decimal_from acc s) t.
Proof.
  revert acc. induction s as [|c s IH]; intros acc; [reflexivity|].
  change (String c s +:+ t) with (String c (s +:+ t)). cbn [decimal_from].
  apply IH.
Qed.

Lemma decimal_snoc s c :
  decimal (s +:+ String c EmptyString) = 10 * decimal s + digit_value c.
Proof. unfold decimal. rewrite decimal_from_app. reflexivity. Qed.

Example decimal_of_str :
  decimal (str 0) = 0 /\ decimal (str 120) = 120 /\ decimal (str 1234) = 1234.
Proof. repeat split. Qed.

Lemma scan_logs_nonneg s w v w' :
  scan_logs s w = Ret (Some v) w' -> 0 <= v.
Proof.
  rewrite scan_logs_search. destruct (re_search s) as [g|] eqn:Hs; [|discriminate].
  destruct (_ <=? _)%nat; [|discriminate].
  intros [= <- _]. destruct (re_search_group _ _ Hs).
  apply decimal_from_nonneg; [assumption | lia].
Qed.

End MarkerFacts.

(** ** Facts: the polling loop *)

Module PollFacts.
Import Text Floating Marker Runtime Benchmark Protocol MarkerFacts.

Lemma deref_frame r w w' :
  environ w' = environ w -> heap w' = heap w -> deref r w' = deref r w.
Proof. intros He Hh. destruct r; cbn; congruence. Qed.

Lemma turns_S c n : turns c (S n) = Ran c :: Slept 1000 :: turns c n.
Proof. reflexivity. Qed.

Section Poll.
Variable P : platform.
Variables (profile service_name : string) (env : dictref).
Variables (start_time total_time_ms : Z).


Lemma poll_once_eq w :
  poll_once P profile service_name env start_time total_time_ms w =
  let c := {| argv := logs_args service_name; call_env := deref env w |} in
  let w1 := fetched P service_name env w in
  match resp (backend P (trace w) c) with
  | Failed e => Exc (SpawnError e) w1
  | Completed _ out =>
      match re_search out with
      | Some g =>
          if (String.length g <=? MAX_STR_DIGITS)%nat
          then Ret (Break (decimal g)) w1 else Exc ValueError w1
      | None =>
          if 60000 <? clock w1 - start_time
          then Ret (Break total_time_ms)
                 (record (Printed (TimeoutNotice profile)) w1)
          else Ret Continue (slept P 1000 w1)
      end
  end.
Proof.
  unfold poll_once, bind, subprocess_run, Protocol.fetched. cbv zeta.
  destruct (resp _) as [rc out|e]; [|reflexivity].
  rewrite scan_logs_search. destruct (re_search out).
  - destruct (_ <=? _)%nat; reflexivity.
  - cbn. destruct (60000 <? _); reflexivity.
Qed.

Lemma raised_by_long h c rc out g :
  resp (backend P h c) = Completed rc out ->
  re_search out = Some g ->
  (String.length g <=? MAX_STR_DIGITS)%nat = false ->
  raised_by P h c ValueError.
Proof.
  intros Hr Hs Hl. right. split; [reflexivity|].
  destruct (re_search_occurrence _ _ Hs) as (i & Hi & ->).
  exists rc, out, i. split; [exact Hr|]. split; [exact Hi|].
  apply Nat.leb_gt in Hl. exact Hl.
Qed.

Lemma poll_cases fuel : forall w,
  let c := {| argv := logs_args service_name; call_env := deref env w |} in
  let o := poll P fuel profile service_name env start_time total_time_ms w in
  environ (final o) = environ w /\ heap (final o) = heap w /\
  exists n, 
  match o with
  | Fuel w' => n = fuel /\ trace w' = trace w ++ turns c n
  | Exc e w' =>
      (n < fuel)%nat /\
      raised_by P (trace w ++ turns c n) c e /\
      trace w' = trace w ++ turns c n ++ [Ran c]
  | Ret v w' =>
      (n < fuel)%nat /\
      ((exists rc out g,
          resp (backend P (trace w ++ turns c n) c) = Completed rc out /\
          re_search out = Some g /\ v = decimal g /\
          trace w' = trace w ++ turns c n ++ [Ran c] /\
          (String.length g <= MAX_STR_DIGITS)%nat)
       \/ (v = total_time_ms /\ 60000 < clock w' - start_time /\
           trace w' =
             trace w ++ turns c n ++ [Ran c; Printed (TimeoutNotice profile)]))
  end.
Proof.
  induction fuel as [|fuel IH]; intros w; cbv zeta.
  - cbn. repeat split. exists 0%nat. cbn. rewrite app_nil_r. auto.
  - cbn [poll]. unfold bind. rewrite poll_once_eq. cbv zeta.
    set (c := {| argv := logs_args service_name; call_env := deref env w |}).
    assert (Hf : trace (fetched P service_name env w) = trace w ++ [Ran c]) by reflexivity.
    destruct (resp _) as [rc out|e] eqn:Hr.
    + destruct (re_search out) as [g|] eqn:Hs.
      * destruct (_ <=? _)%nat eqn:Hl.
        -- cbn. repeat split. exists 0%nat. split; [lia|]. left.
           exists rc, out, g. cbn. rewrite app_nil_r.
           apply Nat.leb_le in Hl. auto.
        -- cbn. repeat split. exists 0%nat. split; [lia|]. cbn.
           rewrite app_nil_r. split; [|reflexivity].
           eapply raised_by_long; eassumption.
      * destruct (60000 <? _) eqn:Ht.
        -- cbn. repeat split. exists 0%nat. split; [lia|]. right.
           apply Z.ltb_lt in Ht. cbn in Ht |- *. rewrite <- app_assoc. auto.
        -- set (w2 := slept P 1000 (fetched P service_name env w)).
           specialize (IH w2). cbv zeta in IH.
           assert (Hd : deref env w2 = deref env w)
             by (apply deref_frame; reflexivity).
           rewrite Hd in IH. fold c in IH.
           assert (Htr : forall l, trace w2 ++ l = trace w ++ turns c 1 ++ l).
           { intros l. cbn. rewrite <- !app_assoc. reflexivity. }
           destruct IH as (He & Hh & n & IH). split; [exact He|].
           split; [exact Hh|]. exists (S n).
           rewrite !Htr in IH.
           destruct (poll P fuel _ _ _ _ _ w2) as [v w'|e w'|w'].
           ++ destruct IH as [Hn IH]. split; [lia|].
              destruct IH as [(rc' & out' & g & H1 & H2 & H3 & H4 & H5)|(H1 & H2 & H3)].
              ** left. exists rc', out', g. auto.
              ** right. auto.
           ++ destruct IH as (Hn & H1 & H2). split; [lia|]. auto.
           ++ destruct IH as [Hn IH]. split; [lia|]. exact IH.
    + cbn. repeat split. exists 0%nat. split; [lia|]. cbn. rewrite app_nil_r.
      split; [|reflexivity]. left. exists e. auto.
Qed.


(** With a steady clock the loop ends within its budget of turns. *)
Lemma poll_not_fuel :
  steady_clock P ->
  forall fuel w w',
    (0 < fuel)%nat ->
    start_time + 60000 < clock w + 1000 * (Z.of_nat fuel - 1) ->
    poll P fuel profile service_name env start_time total_time_ms w <> Fuel w'.
Proof.
  intros [Hc Hn]. induction fuel as [|fuel IH]; intros w w' Hpos Hlt; [lia|].
  cbn [poll]. unfold bind. rewrite poll_once_eq. cbv zeta.
  set (c := {| argv := logs_args service_name; call_env := deref env w |}).
  assert (Hf : clock w <= clock (fetched P service_name env w)).
  { unfold fetched, ran. cbn. specialize (Hc (trace w) c). fold c. lia. }
  destruct (resp _) as [rc out|e]; [|discriminate].
  destruct (re_search out); [destruct (_ <=? _)%nat; discriminate|].
  destruct (60000 <? _) eqn:Ht; [discriminate|].
  apply Z.ltb_ge in Ht.
  destruct fuel as [|fuel]; [lia|].
  apply IH; [lia|].
  unfold slept. cbn [clock advance record].
  specialize (Hn (trace (fetched P service_name env w)) 1000). cbn [trace record] in Hn |- *. lia.
Qed.

(** The clock when the loop ends. *)
Lemma poll_elapsed d j :
  bounded_delays P d j ->
  forall fuel w,
    clock w <= start_time + 60000 + 1000 + j ->
    match poll P fuel profile service_name env start_time total_time_ms w with
    | Ret _ w' | Exc _ w' => clock w' <= start_time + 60000 + 1000 + j + d
    | Fuel _ => True
    end.
Proof.
  intros [Hd Hj]. induction fuel as [|fuel IH]; intros w Hw; [exact I|].
  cbn [poll]. unfold bind. rewrite poll_once_eq. cbv zeta.
  set (c := {| argv := logs_args service_name; call_env := deref env w |}).
  assert (Hf : clock (fetched P service_name env w) <= start_time + 60000 + 1000 + j + d).
  { unfold fetched, ran. cbn. specialize (Hd (trace w) c). fold c. lia. }
  destruct (resp _) as [rc out|e]; [|exact Hf].
  destruct (re_search out); [destruct (_ <=? _)%nat; exact Hf|].
  destruct (60000 <? _) eqn:Ht; [exact Hf|].
  apply Z.ltb_ge in Ht. apply IH.
  unfold slept. cbn [clock advance record].
  specialize (Hj (trace (fetched P service_name env w)) 1000). cbn [trace record] in Hj |- *. lia.
Qed.

(** More fuel does not change a loop that ended. *)
Lemma poll_more_fuel fuel : forall fuel' w,
  (fuel <= fuel')%nat ->
  (forall w', poll P fuel profile service_name env start_time total_time_ms w
              <> Fuel w') ->
  poll P fuel' profile service_name env start_time total_time_ms w =
  poll P fuel profile service_name env start_time total_time_ms w.
Proof.
  induction fuel as [|fuel IH]; intros fuel' w Hle Hend.
  - exfalso. exact (Hend w eq_refl).
  - destruct fuel' as [|fuel']; [lia|]. cbn [poll] in Hend |- *.
    unfold bind in Hend |- *.
    destruct (poll_once P profile service_name env start_time total_time_ms w)
      as [[v|] w1|e w1|w1]; try reflexivity.
    apply IH; [lia | exact Hend].
Qed.

End Poll.
End PollFacts.

(** ** Facts: one trial *)

Module TrialFacts.
Import Text Floating Marker Runtime Benchmark Protocol MarkerFacts PollFacts.

Lemma prepared_env profile consumers work_duration w :
  deref (Local (length (heap w))) (prepared profile consumers work_duration w)
  = trial_env (environ w) consumers work_duration.
Proof.
  unfold prepared, deref, store, alloc, record, trial_env. cbn [heap environ].
  rewrite !list_lookup_alter_eq, list_lookup_middle by reflexivity.
  reflexivity.
Qed.

Lemma subprocess_run_eq P args env w c :
  c = {| argv := args; call_env := deref env w |} ->
  subprocess_run P args env w =
  match resp (backend P (trace w) c) with
  | Completed _ out => Ret out (ran P c w)
  | Failed e => Exc (SpawnError e) (ran P c w)
  end.
Proof. intros ->. reflexivity. Qed.

Lemma loop_ended_polling P h c profile polling :
  loop_ended P h c profile polling -> polling_events c profile polling.
Proof. intros (n & [(-> & _)| ->]); constructor. Qed.

Section Trial.
Variable P : platform.
Variables (fuel : nat) (profile : string) (consumers work_duration : Z).

Lemma run_benchmark_eq w :
  run_benchmark P fuel profile consumers work_duration w =
  let env := Local (length (heap w)) in
  let w0 := prepared profile consumers work_duration w in
  match subprocess_run P (down_args profile) env w0 with
  | Ret _ w1 =>
      match subprocess_run P (up_args profile) env w1 with
      | Ret _ w2 =>
          match poll P fuel profile ("app-" +:+ profile) env (clock w2) 0 w2 with
          | Ret v w3 =>
              match subprocess_run P (down_args profile) env w3 with
              | Ret _ w4 => Ret v w4
              | Exc e w4 => Exc e w4
              | Fuel w4 => Fuel w4
              end
          | Exc e w3 => Exc e w3
          | Fuel w3 => Fuel w3
          end
      | Exc e w1 => Exc e w1
      | Fuel w1 => Fuel w1
      end
  | Exc e w0 => Exc e w0
  | Fuel w0 => Fuel w0
  end.
Proof. reflexivity. Qed.

Lemma run_benchmark_cases w :
  let host := environ w in
  let dc := down_call host profile consumers work_duration in
  let uc := up_call host profile consumers work_duration in
  let lc := logs_call host profile consumers work_duration in
  let announce := Printed (Announce profile consumers work_duration) in
  let head := [announce; Ran dc; Ran uc] in
  let o := run_benchmark P fuel profile consumers work_duration w in
  environ (final o) = host /\
  exists evs, trace (final o) = trace w ++ evs /\
  match o with
  | Ret v _ =>
      exists n, (n < fuel)%nat /\
        ((exists rc out g,
            resp (backend P (trace w ++ head ++ turns lc n) lc) = Completed rc out /\
            re_search out = Some g /\ v = decimal g /\
            (String.length g <= MAX_STR_DIGITS)%nat /\
            evs = head ++ (turns lc n ++ [Ran lc]) ++ [Ran dc])
         \/ (v = 0 /\
             evs = head ++ (turns lc n ++ [Ran lc; Printed (TimeoutNotice profile)])
                     ++ [Ran dc]))
  | Exc e _ =>
      (exists err, e = SpawnError err /\
         resp (backend P (trace w ++ [announce]) dc) = Failed err /\
         evs = [announce; Ran dc])
      \/ (exists err, e = SpawnError err /\
         resp (backend P (trace w ++ [announce; Ran dc]) uc) = Failed err /\
         evs = head)
      \/ (exists n, (n < fuel)%nat /\
         raised_by P (trace w ++ head ++ turns lc n) lc e /\
         evs = head ++ turns lc n ++ [Ran lc])
      \/ (exists err polling, e = SpawnError err /\
         loop_ended P (trace w ++ head) lc profile polling /\
         resp (backend P (trace w ++ head ++ polling) dc) = Failed err /\
         evs = head ++ polling ++ [Ran dc])
  | Fuel _ => evs = head ++ turns lc fuel
  end.
Proof.
  cbv zeta. rewrite run_benchmark_eq. cbv zeta.
  set (env := Local (length (heap w))).
  set (w0 := prepared profile consumers work_duration w).
  set (host := environ w).
  set (dc := down_call host profile consumers work_duration).
  set (uc := up_call host profile consumers work_duration).
  set (lc := logs_call host profile consumers work_duration).
  set (announce := Printed (Announce profile consumers work_duration)).
  assert (He0 : deref env w0 = trial_env host consumers work_duration)
    by apply prepared_env.
  assert (Ht0 : trace w0 = trace w ++ [announce]) by reflexivity.
  rewrite (subprocess_run_eq P _ env w0 dc)
    by (unfold dc, down_call; rewrite He0; reflexivity).
  destruct (resp (backend P (trace w0) dc)) as [rc0 out0|e0] eqn:Hr0.
  2:{ cbn [final]. split; [reflexivity|]. eexists.
      split; [cbn [ran trace advance record]; rewrite Ht0, <- app_assoc; reflexivity|].
      left. exists e0. rewrite <- Ht0. auto. }
  set (w1 := ran P dc w0).
  assert (He1 : deref env w1 = trial_env host consumers work_duration)
    by (rewrite <- He0; apply deref_frame; reflexivity).
  assert (Ht1 : trace w1 = trace w ++ [announce; Ran dc]).
  { unfold w1. cbn [ran trace advance record]. rewrite Ht0, <- app_assoc. reflexivity. }
  rewrite (subprocess_run_eq P _ env w1 uc)
    by (unfold uc, up_call; rewrite He1; reflexivity).
  destruct (resp (backend P (trace w1) uc)) as [rc1 out1|e1] eqn:Hr1.
  2:{ cbn [final]. split; [reflexivity|]. eexists.
      split; [cbn [ran trace advance record]; rewrite Ht1, <- app_assoc; reflexivity|].
      right. left. exists e1. rewrite <- Ht1. auto. }
  set (w2 := ran P uc w1).
  assert (He2 : deref env w2 = trial_env host consumers work_duration)
    by (rewrite <- He1; apply deref_frame; reflexivity).
  assert (Ht2 : trace w2 = trace w ++ [announce; Ran dc; Ran uc]).
  { unfold w2. cbn [ran trace advance record]. rewrite Ht1, <- app_assoc. reflexivity. }
  pose proof (poll_cases P profile ("app-" +:+ profile) env (clock w2) 0 fuel w2) as Hp.
  cbv zeta in Hp. rewrite He2 in Hp.
  change {| argv := _; call_env := _ |} with lc in Hp. destruct Hp as (Hpe & Hph & n & Hp).
  destruct (poll P fuel profile _ env (clock w2) 0 w2) as [v w3|e w3|w3];
    cbn [final] in Hpe, Hph.
  - assert (He3 : deref env w3 = trial_env host consumers work_duration)
      by (rewrite <- He2; apply deref_frame; assumption).
    rewrite (subprocess_run_eq P _ env w3 dc)
      by (unfold dc, down_call; rewrite He3; reflexivity).
    destruct Hp as [Hn Hp].
    assert (Hshape : exists polling,
               trace w3 = trace w2 ++ polling /\
               loop_ended P (trace w2) lc profile polling /\
               ((exists rc out g,
                  resp (backend P (trace w2 ++ turns lc n) lc) = Completed rc out /\
                  re_search out = Some g /\ v = decimal g /\
                  (String.length g <= MAX_STR_DIGITS)%nat /\
                  polling = turns lc n ++ [Ran lc])
                \/ (v = 0 /\ polling = turns lc n ++ [Ran lc; Printed (TimeoutNotice profile)]))).
    { destruct Hp as [(rc & out & g & H1 & H2 & H3 & H4 & H5)|(H1 & H2 & H3)].
      - eexists. split; [exact H4|]. split.
        + exists n. left. split; [reflexivity|].
          destruct (re_search_occurrence _ _ H2) as (i & Hi & Hg).
          exists rc, out, i. split; [exact H1|]. split; [exact Hi|].
          unfold run_length. rewrite <- Hg. exact H5.
        + left. exists rc, out, g. auto.
      - eexists. split; [exact H3|]. split; [exists n; right; reflexivity|].
        right. auto. }
    destruct Hshape as (polling & Ht3 & Hpoll & Hcase).
    assert (Ht4 : trace (ran P dc w3) = trace w ++
              [announce; Ran dc; Ran uc] ++ polling ++ [Ran dc]).
    { cbn [ran trace advance record]. rewrite Ht3, Ht2, <- !app_assoc. reflexivity. }
    destruct (resp (backend P (trace w3) dc)) as [rc3 out3|e3] eqn:Hr3.
    + cbn [final]. split; [cbn; rewrite Hpe; reflexivity|].
      eexists. split; [exact Ht4|]. exists n. split; [exact Hn|].
      destruct Hcase as [(rc & out & g & H1 & H2 & H3 & H4 & H5)|(H1 & H2)].
      * left. exists rc, out, g. rewrite Ht2, <- app_assoc in H1. subst polling. auto.
      * right. subst polling. auto.
    + cbn [final]. split; [cbn; rewrite Hpe; reflexivity|].
      eexists. split; [exact Ht4|]. right. right. right.
      exists e3, polling. split; [reflexivity|].
      rewrite Ht2 in Hpoll. split; [exact Hpoll|].
      rewrite Ht3, Ht2, <- app_assoc in Hr3. auto.
  - destruct Hp as (Hn & H1 & H3). cbn [final].
    split; [rewrite Hpe; reflexivity|]. eexists.
    split; [rewrite H3, Ht2, <- !app_assoc; reflexivity|].
    right. right. left. exists n. split; [exact Hn|].
    rewrite Ht2, <- app_assoc in H1. auto.
  - destruct Hp as [-> H3]. cbn [final]. split; [rewrite Hpe; reflexivity|].
    eexists. split; [rewrite H3, Ht2, <- !app_assoc; reflexivity|]. reflexivity.
Qed.

End Trial.
Section TrialOutcomes.
Variable P : platform.
Variables (fuel : nat) (profile : string) (consumers work_duration : Z).

(** A trial that returns: its events, and where its value comes from. *)
Lemma run_benchmark_ret w v w' :
  run_benchmark P fuel profile consumers work_duration w = Ret v w' ->
  environ w' = environ w /\ 0 <= v /\
  (v = 0 \/ read_from_logs P v) /\
  exists evs, trace w' = trace w ++ evs /\
    trial_events (environ w) profile consumers work_duration evs.
Proof.
  intros H. pose proof (run_benchmark_cases P fuel profile consumers work_duration w) as Hc.
  cbv zeta in Hc. rewrite H in Hc. cbn [final] in Hc.
  destruct Hc as (He & evs & Ht & n & Hn & Hc). split; [exact He|].
  destruct Hc as [(rc & out & g & H1 & H2 & H3 & H4 & H5)|(H1 & H2)].
  - split; [|split].
    + subst v. destruct (re_search_group _ _ H2).
      apply decimal_from_nonneg; [assumption | lia].
    + right. destruct (re_search_occurrence _ _ H2) as (i & Hi & Hg).
      eexists _, _, rc, out, i. split; [exact H1|]. split; [exact Hi|].
      unfold run_length, integer_at. rewrite <- Hg. auto.
    + exists evs. split; [exact Ht|]. eexists. split; [|exact H5]. constructor.
  - split; [lia|]. split; [left; exact H1|].
    exists evs. split; [exact Ht|]. eexists. split; [|exact H2].
    constructor.
Qed.

(** The events of a trial that raised. *)
Lemma run_benchmark_exc_events w e w' :
  run_benchmark P fuel profile consumers work_duration w = Exc e w' ->
  let host := environ w in
  let dc := down_call host profile consumers work_duration in
  let uc := up_call host profile consumers work_duration in
  let lc := logs_call host profile consumers work_duration in
  let announce := Printed (Announce profile consumers work_duration) in
  exists evs, trace w' = trace w ++ evs /\
    (evs = [announce; Ran dc]
     \/ evs = [announce; Ran dc; Ran uc]
     \/ (exists n, evs = [announce; Ran dc; Ran uc] ++ turns lc n ++ [Ran lc])
     \/ trial_events host profile consumers work_duration evs).
Proof.
  intros H. pose proof (run_benchmark_cases P fuel profile consumers work_duration w) as Hc.
  cbv zeta in Hc |- *. rewrite H in Hc. cbn [final] in Hc.
  destruct Hc as (_ & evs & Ht & Hc). exists evs. split; [exact Ht|].
  destruct Hc as [(err & _ & _ & ->)|[(err & _ & _ & ->)|[(n & _ & _ & ->)
                 |(err & polling & _ & Hl & _ & ->)]]]; auto.
  - right. right. left. exists n. reflexivity.
  - right. right. right. exists polling. split; [|reflexivity].
    eapply loop_ended_polling; exact Hl.
Qed.

(** What a trial raises, a call of the trial raised; a [ValueError] comes
    from a fetch. *)
Lemma run_benchmark_exc w e w' :
  run_benchmark P fuel profile consumers work_duration w = Exc e w' ->
  environ w' = environ w /\
  exists h c,
    raised_by P h c e /\
    (e = ValueError -> argv c = logs_args ("app-" +:+ profile)).
Proof.
  intros H. pose proof (run_benchmark_cases P fuel profile consumers work_duration w) as Hc.
  cbv zeta in Hc. rewrite H in Hc. cbn [final] in Hc.
  destruct Hc as (He & evs & Ht & Hc). split; [exact He|].
  destruct Hc as [(err & -> & Hr & _)|[(err & -> & Hr & _)|[(n & _ & Hr & _)
                 |(err & polling & -> & _ & Hr & _)]]].
  - eexists _, _. split; [left; exists err; split; [reflexivity | exact Hr]|discriminate].
  - eexists _, _. split; [left; exists err; split; [reflexivity | exact Hr]|discriminate].
  - eexists _, _. split; [exact Hr|]. reflexivity.
  - eexists _, _. split; [left; exists err; split; [reflexivity | exact Hr]|discriminate].
Qed.

(** With a steady clock a trial ends: its loop stays within 62 turns. *)
Lemma run_benchmark_ends w w' :
  steady_clock P -> (62 <= fuel)%nat ->
  run_benchmark P fuel profile consumers work_duration w <> Fuel w'.
Proof.
  intros Hs Hf H. rewrite run_benchmark_eq in H. cbv zeta in H.
  unfold subprocess_run in H.
  repeat match type of H with
  | context [resp (backend P ?h ?c)] => destruct (resp (backend P h c))
  | match poll P fuel ?p ?s ?e ?st ?t ?w with _ => _ end = _ =>
      let Hp := fresh "Hp" in
      destruct (poll P fuel p s e st t w) eqn:Hp
  end; try discriminate.
  all: eapply poll_not_fuel; [exact Hs| | |exact Hp]; lia.
Qed.

(** No call raises when the backend always answers and no text fetched
    from the logs of the service shows more digits than [int] takes. *)
Lemma never_raised_by h c e :
  always_completes P ->
  (forall h c rc out i,
     resp (backend P h c) = Completed rc out ->
     argv c = logs_args ("app-" +:+ profile) ->
     first_occurrence out i -> (run_length out (i + 15) <= 4300)%nat) ->
  (e = ValueError -> argv c = logs_args ("app-" +:+ profile)) ->
  ~ raised_by P h c e.
Proof.
  intros Ha Hshort Hc [(err & _ & Hr)|(He & rc & out & i & Hr & Hi & Hlong)].
  - destruct (Ha h c) as (rc & out & Hr'). congruence.
  - specialize (Hshort h c rc out i Hr (Hc He) Hi). lia.
Qed.

(** With a steady clock, a backend that always answers and numbers that
    [int] takes, a trial returns. *)
Lemma run_benchmark_returns w :
  steady_clock P -> always_completes P ->
  (forall h c rc out i,
     resp (backend P h c) = Completed rc out ->
     argv c = logs_args ("app-" +:+ profile) ->
     first_occurrence out i -> (run_length out (i + 15) <= 4300)%nat) ->
  (62 <= fuel)%nat ->
  exists v w', run_benchmark P fuel profile consumers work_duration w = Ret v w'.
Proof.
  intros Hs Ha Hshort Hf.
  destruct (run_benchmark P fuel profile consumers work_duration w) as [v w'|e w'|w'] eqn:H.
  - eauto.
  - apply run_benchmark_exc in H as (_ & h & c & Hr & Hc).
    exfalso. exact (never_raised_by h c e Ha Hshort Hc Hr).
  - exfalso. exact (run_benchmark_ends w w' Hs Hf H).
Qed.

(** The first fetch already shows the marker. *)
Lemma run_benchmark_first_fetch w rc out g :
  let host := environ w in
  let dc := down_call host profile consumers work_duration in
  let uc := up_call host profile consumers work_duration in
  let lc := logs_call host profile consumers work_duration in
  let head := [Printed (Announce profile consumers work_duration); Ran dc; Ran uc] in
  always_completes P -> (0 < fuel)%nat ->
  resp (backend P (trace w ++ head) lc) = Completed rc out ->
  re_search out = Some g ->
  (String.length g <= MAX_STR_DIGITS)%nat ->
  exists w',
    run_benchmark P fuel profile consumers work_duration w = Ret (decimal g) w' /\
    environ w' = environ w /\
    trace w' = trace w ++ head ++ [Ran lc; Ran dc].
Proof.
  cbv zeta. intros Ha Hf Hr Hs Hl.
  rewrite run_benchmark_eq. cbv zeta.
  set (env := Local (length (heap w))).
  set (w0 := prepared profile consumers work_duration w).
  set (host := environ w) in *.
  set (dc := down_call host profile consumers work_duration) in *.
  set (uc := up_call host profile consumers work_duration) in *.
  set (lc := logs_call host profile consumers work_duration) in *.
  assert (He0 : deref env w0 = trial_env host consumers work_duration)
    by apply prepared_env.
  rewrite (subprocess_run_eq P _ env w0 dc)
    by (unfold dc, down_call; rewrite He0; reflexivity).
  destruct (Ha (trace w0) dc) as (rc0 & out0 & ->).
  set (w1 := ran P dc w0).
  rewrite (subprocess_run_eq P _ env w1 uc)
    by (unfold uc, up_call; rewrite <- He0; reflexivity).
  destruct (Ha (trace w1) uc) as (rc1 & out1 & ->).
  set (w2 := ran P uc w1).
  assert (Ht2 : trace w2 = trace w ++ [Printed (Announce profile consumers work_duration); Ran dc; Ran uc]).
  { cbn. rewrite <- !app_assoc. reflexivity. }
  destruct fuel as [|fuel']; [lia|]. cbn [poll]. unfold bind at 1.
  rewrite poll_once_eq. cbv zeta.
  assert (He2 : deref env w2 = trial_env host consumers work_duration)
    by (rewrite <- He0; apply deref_frame; reflexivity).
  rewrite He2. change {| argv := _; call_env := _ |} with lc.
  rewrite <- Ht2 in Hr. rewrite Hr, Hs.
  apply Nat.leb_le in Hl. rewrite Hl. unfold ret.
  set (w3 := fetched P _ env w2).
  assert (Ht3 : trace w3 = trace w2 ++ [Ran lc]).
  { unfold w3, fetched, ran. cbn [trace advance record]. rewrite He2. reflexivity. }
  rewrite (subprocess_run_eq P _ env w3 dc)
    by (unfold dc, down_call; rewrite <- He0; reflexivity).
  destruct (Ha (trace w3) dc) as (rc3 & out3 & ->).
  eexists. split; [reflexivity|]. split; [reflexivity|].
  change (trace (ran P dc w3)) with (trace w3 ++ [Ran dc]).
  rewrite Ht3, Ht2, <- !app_assoc. reflexivity.
Qed.

(** The marker never shows: the trial ends by the timeout. *)
Lemma run_benchmark_timeout w :
  steady_clock P -> always_completes P ->
  never_marked P ("app-" +:+ profile) -> (62 <= fuel)%nat ->
  exists w' n,
    run_benchmark P fuel profile consumers work_duration w = Ret 0 w' /\
    environ w' = environ w /\
    trace w' = trace w ++
      [Printed (Announce profile consumers work_duration);
       Ran (down_call (environ w) profile consumers work_duration);
       Ran (up_call (environ w) profile consumers work_duration)]
      ++ (turns (logs_call (environ w) profile consumers work_duration) n
          ++ [Ran (logs_call (environ w) profile consumers work_duration);
              Printed (TimeoutNotice profile)])
      ++ [Ran (down_call (environ w) profile consumers work_duration)].
Proof.
  intros Hs Ha Hm Hf.
  assert (Hshort : forall h c rc out i,
            resp (backend P h c) = Completed rc out ->
            argv c = logs_args ("app-" +:+ profile) ->
            first_occurrence out i -> (run_length out (i + 15) <= 4300)%nat).
  { intros h c rc out i Hr Hc [Hi _]. rewrite (Hm h c rc out Hr Hc i) in Hi.
    discriminate. }
  destruct (run_benchmark_returns w Hs Ha Hshort Hf) as (v & w' & H).
  pose proof (run_benchmark_cases P fuel profile consumers work_duration w) as Hc.
  cbv zeta in Hc. rewrite H in Hc. cbn [final] in Hc.
  destruct Hc as (He & evs & Ht & n & Hn & Hc).
  destruct Hc as [(rc & out & g & H1 & H2 & H3 & H4 & H5)|(H1 & H2)].
  - pose proof (Hm _ _ _ _ H1 eq_refl) as Hno.
    apply re_search_none in Hno. congruence.
  - subst v evs. exists w', n. auto.
Qed.

End TrialOutcomes.
End TrialFacts.

(** ** Facts: the division of line 52 *)

Module FloatFacts.
Import Text Floating Marker Runtime Benchmark Protocol.

Lemma overflow_above : 2 ^ 1023 < OVERFLOW.
Proof. apply Z.ltb_lt. vm_compute. reflexivity. Qed.

Lemma overflow_large : 1 < OVERFLOW.
Proof. apply Z.ltb_lt. vm_compute. reflexivity. Qed.

(** The division overflows exactly when the quotient is at or beyond the
    midpoint above the largest float. *)
Lemma fdiv_none a b : fdiv a b = None <-> OVERFLOW * Z.abs b <= Z.abs a.
Proof.
  unfold fdiv. destruct (OVERFLOW * Z.abs b <=? Z.abs a) eqn:H.
  - apply Z.leb_le in H. tauto.
  - apply Z.leb_gt in H. split; [discriminate | lia].
Qed.

Lemma fdiv_some a b :
  Z.abs a < OVERFLOW * Z.abs b ->
  fdiv a b =
  Some (Finite (xorb (a <? 0) (b <? 0)) (nearest (Z.abs a # Z.to_pos (Z.abs b)))).
Proof.
  intros H. unfold fdiv. apply Z.leb_gt in H. rewrite H. reflexivity.
Qed.

(** Two times, the second at or above the first times [OVERFLOW], when the
    division of their difference overflows. *)
Lemma overflow_difference lua_time red_time :
  0 < lua_time -> 0 <= red_time ->
  (OVERFLOW * Z.abs lua_time <= Z.abs (red_time - lua_time) <->
   OVERFLOW * lua_time <= red_time - lua_time).
Proof.
  intros Hl Hr. pose proof overflow_large as Ho.
  assert (lua_time < OVERFLOW * lua_time) by nia.
  rewrite (Z.abs_eq lua_time) by lia. lia.
Qed.

(** Times below [2^1023] have a quotient that is a float. *)
Lemma fdiv_modest lua_time red_time :
  0 < lua_time -> 0 <= red_time -> red_time < 2 ^ 1023 ->
  exists q, fdiv (red_time - lua_time) lua_time = Some q.
Proof.
  intros Hl Hr Hm. destruct (fdiv (red_time - lua_time) lua_time) as [q|] eqn:H.
  - eauto.
  - exfalso. apply fdiv_none in H. apply overflow_difference in H; [|lia..].
    pose proof overflow_above as Ho.
    assert (OVERFLOW <= OVERFLOW * lua_time) by nia. lia.
Qed.

(** Line 52, case by case. *)
Lemma percent_diff_cases lua_time red_time w :
  match percent_diff lua_time red_time w with
  | Ret d w' =>
      w' = w /\
      (0 < lua_time ->
       exists q, fdiv (red_time - lua_time) lua_time = Some q /\ d = fmul q 100) /\
      (lua_time <= 0 -> d = zero)
  | Exc e w' =>
      w' = w /\ e = OverflowError /\ 0 < lua_time /\
      fdiv (red_time - lua_time) lua_time = None
  | Fuel _ => False
  end.
Proof.
  unfold percent_diff, truediv, bind.
  destruct (0 <? lua_time) eqn:Hl.
  - apply Z.ltb_lt in Hl.
    destruct (lua_time =? 0) eqn:Hz; [apply Z.eqb_eq in Hz; lia|].
    destruct (fdiv (red_time - lua_time) lua_time) as [q|] eqn:Hq; cbn.
    + split; [reflexivity|]. split; [eauto | lia].
    + auto.
  - apply Z.ltb_ge in Hl. cbn. split; [reflexivity|]. split; [lia | reflexivity].
Qed.

(** Under [modest], a time read from the logs is below [2^1023]. *)
Lemma modest_read P v : modest P -> read_from_logs P v -> v < 2 ^ 1023.
Proof.
  intros Hm (h & c & rc & out & i & Hr & Hi & _ & <-).
  apply (Hm h c rc out i Hr Hi).
Qed.

End FloatFacts.

(** ** Facts: the sweep *)

Module SweepFacts.
Import Text Floating Marker Runtime Benchmark Protocol.
Import MarkerFacts PollFacts TrialFacts FloatFacts.

Lemma not_row_turns c n : Forall not_row (turns c n).
Proof.
  induction n as [|n IH]; [constructor|].
  rewrite turns_S. repeat constructor. exact IH.
Qed.

Lemma not_row_polling c p evs : polling_events c p evs -> Forall not_row evs.
Proof.
  intros [n|n]; apply Forall_app; split; try apply not_row_turns;
    repeat constructor.
Qed.

Lemma not_row_trial host p c wd evs :
  trial_events host p c wd evs -> Forall not_row evs.
Proof.
  intros (polling & Hp & ->). repeat constructor.
  apply Forall_app. split; [eapply not_row_polling; eassumption|].
  repeat constructor.
Qed.

Lemma row_counts_not_row evs : Forall not_row evs -> row_counts evs = [].
Proof.
  induction 1 as [|e evs He _ IH]; [reflexivity|].
  unfold row_counts in *. cbn. destruct e as [| |[]]; cbn in *; try exact IH.
  contradiction.
Qed.

Lemma row_ok_not_row evs : Forall not_row evs -> Forall row_ok evs.
Proof.
  intros H. eapply Forall_impl; [exact H|]. intros [| |[]]; cbn; tauto.
Qed.

Lemma row_counts_app a b : row_counts (a ++ b) = row_counts a ++ row_counts b.
Proof. apply omap_app. Qed.

Section Sweep.
Variable P : platform.
Variable fuel : nat.

Lemma run_benchmark_no_rows profile consumers work_duration w :
  let o := run_benchmark P fuel profile consumers work_duration w in
  exists evs, trace (final o) = trace w ++ evs /\ Forall not_row evs.
Proof.
  pose proof (run_benchmark_cases P fuel profile consumers work_duration w) as Hc.
  cbv zeta in Hc |- *. destruct Hc as (_ & evs & Ht & Hc).
  exists evs. split; [exact Ht|].
  destruct (run_benchmark _ _ _ _ _ _) as [v w'|e w'|w'] eqn:H.
  - destruct Hc as (n & _ & [(rc & out & g & _ & _ & _ & _ & ->)|(_ & ->)]);
      repeat constructor; rewrite !Forall_app; repeat split;
      try apply not_row_turns; repeat constructor.
  - destruct (run_benchmark_exc_events _ _ _ _ _ _ _ _ H) as (evs' & Ht' & Hs).
    cbn [final] in Ht.
    assert (evs' = evs) as ->
      by (rewrite Ht in Ht'; eapply app_inv_head; symmetry; exact Ht').
    destruct Hs as [->|[->|[(n & ->)|Hs]]].
    + repeat constructor.
    + repeat constructor.
    + repeat constructor. rewrite !Forall_app. split; [apply not_row_turns|].
      repeat constructor.
    + eapply not_row_trial; eassumption.
  - subst evs. repeat constructor. apply not_row_turns.
Qed.

Lemma sweep_cases work_duration consumer_counts : forall w,
  let o := sweep P fuel consumer_counts work_duration w in
  environ (final o) = environ w /\
  exists evs, trace (final o) = trace w ++ evs /\
    Forall row_ok evs /\
    row_counts evs `prefix_of` consumer_counts /\
    match o with
    | Ret _ _ =>
        sweep_events (environ w) work_duration consumer_counts evs /\
        row_counts evs = consumer_counts
    | Exc e _ => sweep_raises P e
    | Fuel _ => True
    end.
Proof.
  induction consumer_counts as [|count rest IH]; intros w; cbv zeta.
  - cbn. split; [reflexivity|]. exists []. rewrite app_nil_r.
    repeat split; try constructor. reflexivity.
  - cbn [sweep]. unfold bind, print.
    destruct (run_benchmark_no_rows "lua" count work_duration w) as (e1 & Ht1 & Hn1).
    destruct (run_benchmark P fuel "lua" count work_duration w)
      as [lua_time w1|e w1|w1] eqn:H1; cbn [final] in Ht1.
    2:{ apply run_benchmark_exc in H1 as (He & h & c & Hx & _). cbn [final].
        split; [exact He|].
        exists e1. split; [exact Ht1|]. split; [apply row_ok_not_row, Hn1|].
        rewrite (row_counts_not_row _ Hn1). split; [apply prefix_nil|].
        left. eauto. }
    2:{ pose proof (run_benchmark_cases P fuel "lua" count work_duration w) as Hc.
        cbv zeta in Hc. rewrite H1 in Hc. destruct Hc as (He & _).
        cbn [final] in He |- *. split; [exact He|].
        exists e1. split; [exact Ht1|]. split; [apply row_ok_not_row, Hn1|].
        rewrite (row_counts_not_row _ Hn1). split; [apply prefix_nil | exact I]. }
    apply run_benchmark_ret in H1 as (He1 & Hv1 & Hread1 & l1 & Hl1 & Hs1).
    assert (l1 = e1) by (rewrite Ht1 in Hl1; eapply app_inv_head; symmetry; exact Hl1).
    subst l1. clear Hl1.
    destruct (run_benchmark_no_rows "redlock" count work_duration w1) as (e2 & Ht2 & Hn2).
    destruct (run_benchmark P fuel "redlock" count work_duration w1)
      as [red_time w2|e w2|w2] eqn:H2; cbn [final] in Ht2.
    2:{ apply run_benchmark_exc in H2 as (He & h & c & Hx & _). cbn [final].
        split; [congruence|].
        exists (e1 ++ e2). split; [rewrite Ht2, Ht1, app_assoc; reflexivity|].
        split; [apply Forall_app; split; apply row_ok_not_row; assumption|].
        rewrite row_counts_app, (row_counts_not_row _ Hn1), (row_counts_not_row _ Hn2).
        split; [apply prefix_nil|]. left. eauto. }
    2:{ pose proof (run_benchmark_cases P fuel "redlock" count work_duration w1) as Hc.
        cbv zeta in Hc. rewrite H2 in Hc. destruct Hc as (He & _).
        cbn [final] in He |- *. split; [congruence|].
        exists (e1 ++ e2). split; [rewrite Ht2, Ht1, app_assoc; reflexivity|].
        split; [apply Forall_app; split; apply row_ok_not_row; assumption|].
        rewrite row_counts_app, (row_counts_not_row _ Hn1), (row_counts_not_row _ Hn2).
        split; [apply prefix_nil | exact I]. }
    apply run_benchmark_ret in H2 as (He2 & Hv2 & Hread2 & l2 & Hl2 & Hs2).
    assert (l2 = e2) by (rewrite Ht2 in Hl2; eapply app_inv_head; symmetry; exact Hl2).
    subst l2. clear Hl2. rewrite He1 in Hs2.
    pose proof (percent_diff_cases lua_time red_time w2) as Hd.
    destruct (percent_diff lua_time red_time w2) as [d w2'|e w2'|w2'];
      [|cbn [final]|contradiction].
    2:{ destruct Hd as (-> & -> & Hl & Hq). split; [congruence|].
        exists (e1 ++ e2). split; [rewrite Ht2, Ht1, app_assoc; reflexivity|].
        split; [apply Forall_app; split; apply row_ok_not_row; assumption|].
        rewrite row_counts_app, (row_counts_not_row _ Hn1), (row_counts_not_row _ Hn2).
        split; [apply prefix_nil|]. right. split; [reflexivity|].
        apply fdiv_none in Hq. apply overflow_difference in Hq; [|lia..].
        pose proof overflow_large as Ho.
        assert (lua_time < OVERFLOW * lua_time) by nia.
        exists lua_time, red_time.
        split; [destruct Hread1 as [?|?]; [lia | assumption]|].
        split; [destruct Hread2 as [?|?]; [lia | assumption]|].
        split; [exact Hl | exact Hq]. }
    destruct Hd as (-> & Hpos & Hzero).
    set (w3 := record (Printed (Row count lua_time red_time d)) w2).
    specialize (IH w3). cbv zeta in IH.
    destruct IH as (He3 & e3 & Ht3 & Hok3 & Hpre3 & Ho3).
    assert (Hrow : row_ok (Printed (Row count lua_time red_time d))).
    { cbn. repeat split; try assumption. intros Hl. apply Hzero. lia. }
    split; [rewrite He3; cbn; congruence|].
    exists (e1 ++ e2 ++ [Printed (Row count lua_time red_time d)] ++ e3).
    split; [rewrite Ht3; cbn [w3 record trace]; rewrite Ht2, Ht1, <- !app_assoc; reflexivity|].
    split.
    { apply Forall_app; split; [apply row_ok_not_row; assumption|].
      apply Forall_app; split; [apply row_ok_not_row; assumption|].
      constructor; [exact Hrow | exact Hok3]. }
    rewrite !row_counts_app, (row_counts_not_row _ Hn1), (row_counts_not_row _ Hn2).
    cbn [app row_counts omap]. fold (row_counts e3).
    split; [apply prefix_cons, Hpre3|].
    destruct (sweep P fuel rest work_duration w3) as [[] w4|e w4|w4].
    + destruct Ho3 as [Hsw Hrc]. split; [|rewrite Hrc; reflexivity].
      econstructor; try eassumption.
      replace (environ w) with (environ w3) by (cbn; congruence). exact Hsw.
    + exact Ho3.
    + exact I.
Qed.

(** With a steady clock, a backend that always answers and modest times,
    the sweep returns. *)
Lemma sweep_returns work_duration consumer_counts : forall w,
  steady_clock P -> always_completes P -> modest P -> (62 <= fuel)%nat ->
  exists w', sweep P fuel consumer_counts work_duration w = Ret tt w'.
Proof.
  intros w Hs Ha Hm Hf. revert w.
  assert (Hshort : forall profile h c rc out i,
            resp (backend P h c) = Completed rc out ->
            argv c = logs_args ("app-" +:+ profile) ->
            first_occurrence out i -> (run_length out (i + 15) <= 4300)%nat).
  { intros profile h c rc out i Hr _ Hi. apply (Hm h c rc out i Hr Hi). }
  induction consumer_counts as [|count rest IH]; intros w.
  - eexists. reflexivity.
  - cbn [sweep]. unfold bind at 1.
    destruct (run_benchmark_returns P fuel "lua" count work_duration w Hs Ha
                (Hshort "lua") Hf) as (lua_time & w1 & H1).
    rewrite H1. apply run_benchmark_ret in H1 as (_ & Hv1 & _).
    unfold bind at 1.
    destruct (run_benchmark_returns P fuel "redlock" count work_duration w1 Hs Ha
                (Hshort "redlock") Hf) as (red_time & w2 & H2).
    rewrite H2. apply run_benchmark_ret in H2 as (_ & Hv2 & Hread2 & _).
    unfold bind at 1.
    pose proof (percent_diff_cases lua_time red_time w2) as Hd.
    destruct (percent_diff lua_time red_time w2) as [d w2'|e w2'|w2'];
      [|exfalso|contradiction].
    + destruct Hd as (-> & _). unfold bind at 1, print at 1. apply IH.
    + destruct Hd as (_ & _ & Hl & Hq).
      assert (Hlt : red_time < 2 ^ 1023).
      { destruct Hread2 as [->|Hread2]; [apply Z.ltb_lt; vm_compute; reflexivity|].
        exact (modest_read P red_time Hm Hread2). }
      destruct (fdiv_modest lua_time red_time Hl Hv2 Hlt) as (q & Hq').
      congruence.
Qed.

End Sweep.
End SweepFacts.

(** ** Facts: what a trace shows *)

Module TraceFacts.
Import Text Floating Marker Runtime Benchmark Protocol.
Import MarkerFacts PollFacts TrialFacts FloatFacts SweepFacts.

Lemma since_app w w' evs : trace w' = trace w ++ evs -> since w w' = evs.
Proof. intros H. unfold since. rewrite H. apply drop_app_length. Qed.

Lemma calls_app a b : calls (a ++ b) = calls a ++ calls b.
Proof. apply omap_app. Qed.

Lemma printed_app a b : printed (a ++ b) = printed a ++ printed b.
Proof. apply omap_app. Qed.

Lemma calls_turns c n : calls (turns c n) = replicate n c.
Proof.
  induction n as [|n IH]; [reflexivity|].
  rewrite turns_S. cbn. f_equal. exact IH.
Qed.

Lemma printed_turns c n : printed (turns c n) = [].
Proof.
  induction n as [|n IH]; [reflexivity|]. rewrite turns_S. exact IH.
Qed.

Lemma calls_polling c p evs :
  polling_events c p evs -> exists n, calls evs = replicate (S n) c.
Proof.
  intros [n|n]; exists n; rewrite calls_app, calls_turns; cbn;
    symmetry; apply replicate_cons_app.
Qed.

(** No occurrence of the marker, and the search of the program. *)
Lemma no_occurrence_search s : re_search s = None -> no_occurrence s.
Proof.
  induction s as [|a s IH]; intros H j.
  - apply occurs_at_empty.
  - rewrite re_search_unfold, match_here_occurs in H.
    destruct (occurs_at (String a s) 0) eqn:H0; [discriminate|].
    destruct j as [|j]; [exact H0|]. rewrite occurs_at_tail. apply IH, H.
Qed.

(** Counting the teardowns of a trial. *)
Lemma filter_replicate_logs p c n :
  argv c <> down_args p ->
  filter (fun c => argv c = down_args p) (replicate n c) = [].
Proof.
  intros Hne. induction n as [|n IH]; [reflexivity|].
  cbn [replicate]. rewrite filter_cons_False by exact Hne. exact IH.
Qed.

Lemma teardowns_head host p c wd rest :
  teardowns p
    ([Printed (Announce p c wd); Ran (down_call host p c wd);
      Ran (up_call host p c wd)] ++ rest)
  = length (filter (fun c => argv c = down_args p) (calls rest)).
Proof.
  unfold teardowns.
  change (calls (_ ++ rest))
    with (down_call host p c wd :: up_call host p c wd :: calls rest).
  cbn [after_start down_call up_call argv].
  rewrite bool_decide_eq_false_2 by discriminate.
  rewrite bool_decide_eq_true_2 by reflexivity. reflexivity.
Qed.

Lemma teardowns_reset host p c wd :
  teardowns p [Printed (Announce p c wd); Ran (down_call host p c wd)]
  = 0%nat.
Proof.
  unfold teardowns. change (calls _) with [down_call host p c wd].
  cbn [after_start down_call argv].
  rewrite bool_decide_eq_false_2 by discriminate. reflexivity.
Qed.

Lemma teardowns_trial host p c wd evs :
  trial_events host p c wd evs -> teardowns p evs = 1%nat.
Proof.
  intros (polling & Hp & ->). rewrite teardowns_head, calls_app, filter_app.
  destruct (calls_polling _ _ _ Hp) as (n & ->).
  rewrite filter_replicate_logs by discriminate.
  change (calls [Ran (down_call host p c wd)]) with [down_call host p c wd].
  rewrite filter_cons_True by reflexivity. reflexivity.
Qed.

Lemma teardowns_fetching host p c wd n :
  teardowns p
    ([Printed (Announce p c wd); Ran (down_call host p c wd);
      Ran (up_call host p c wd)]
     ++ turns (logs_call host p c wd) n ++ [Ran (logs_call host p c wd)])
  = 0%nat.
Proof.
  rewrite teardowns_head, calls_app, calls_turns, filter_app.
  rewrite filter_replicate_logs by discriminate.
  change (calls [Ran (logs_call host p c wd)]) with [logs_call host p c wd].
  rewrite filter_cons_False by discriminate. reflexivity.
Qed.

(** Every call of a trial is given the mapping of the trial. *)
Lemma given_turns E c n : call_env c = E -> Forall (given E) (turns c n).
Proof.
  intros H. induction n as [|n IH]; [constructor|].
  rewrite turns_S. repeat constructor; assumption.
Qed.

Lemma given_polling E c p evs :
  call_env c = E -> polling_events c p evs -> Forall (given E) evs.
Proof.
  intros H [n|n]; apply Forall_app; split; try (apply given_turns; exact H);
    repeat constructor; exact H.
Qed.

Lemma run_benchmark_given P fuel profile consumers work_duration w :
  let o := run_benchmark P fuel profile consumers work_duration w in
  environ (final o) = environ w /\
  Forall (given (trial_env (environ w) consumers work_duration))
    (since w (final o)).
Proof.
  pose proof (run_benchmark_cases P fuel profile consumers work_duration w) as Hc.
  cbv zeta in Hc |- *. destruct Hc as (He & evs & Ht & Hc).
  split; [exact He|]. rewrite (since_app _ _ _ Ht).
  destruct (run_benchmark _ _ _ _ _ _) as [v w'|e w'|w'] eqn:H.
  - destruct Hc as (n & _ & [(rc & out & g & _ & _ & _ & _ & ->)|(_ & ->)]);
      repeat constructor; rewrite !Forall_app; repeat split;
      try (apply given_turns; reflexivity); repeat constructor.
  - destruct (run_benchmark_exc_events _ _ _ _ _ _ _ _ H) as (evs' & Ht' & Hs).
    cbn [final] in Ht.
    assert (evs' = evs) as ->
      by (rewrite Ht in Ht'; eapply app_inv_head; symmetry; exact Ht').
    destruct Hs as [->|[->|[(n & ->)|Hs]]].
    + repeat constructor.
    + repeat constructor.
    + repeat constructor. rewrite !Forall_app.
      split; [apply given_turns; reflexivity|]. repeat constructor.
    + destruct Hs as (polling & Hp & ->). repeat constructor.
      apply Forall_app. split; [|repeat constructor].
      eapply given_polling; [|exact Hp]. reflexivity.
  - subst evs. repeat constructor. apply given_turns. reflexivity.
Qed.

(** The loop begins with a fetch. *)
Lemma poll_fetches_first P profile service_name env start_time total fuel w :
  (0 < fuel)%nat ->
  exists rest,
    since w (final (poll P fuel profile service_name env start_time total w))
    = Ran {| argv := logs_args service_name; call_env := deref env w |} :: rest.
Proof.
  intros Hf.
  pose proof (poll_cases P profile service_name env start_time total fuel w) as Hc.
  cbv zeta in Hc. destruct Hc as (_ & _ & n & Hc).
  destruct (poll _ _ _ _ _ _ _ w) as [v w'|e w'|w']; cbn [final].
  - destruct Hc as (_ & [(rc & out & g & _ & _ & _ & Ht & _)|(_ & _ & Ht)]);
      rewrite (since_app _ _ _ Ht); destruct n; eexists; reflexivity.
  - destruct Hc as (_ & _ & Ht).
    rewrite (since_app _ _ _ Ht); destruct n; eexists; reflexivity.
  - destruct Hc as (-> & Ht). rewrite (since_app _ _ _ Ht).
    destruct fuel; [lia|]. eexists. reflexivity.
Qed.

(** The two variables of a trial, and the rest of the host's mapping. *)
Lemma trial_env_lookup host consumers work_duration :
  trial_env host consumers work_duration !! "NUM_CONSUMERS" = Some (str consumers) /\
  trial_env host consumers work_duration !! "WORK_DURATION" = Some (str work_duration) /\
  forall k, k <> "NUM_CONSUMERS" -> k <> "WORK_DURATION" ->
    trial_env host consumers work_duration !! k = host !! k.
Proof.
  unfold trial_env. split; [|split].
  - rewrite lookup_insert_ne by discriminate. apply lookup_insert_eq.
  - apply lookup_insert_eq.
  - intros k H1 H2. rewrite !lookup_insert_ne by congruence. reflexivity.
Qed.

End TraceFacts.

(** ** The concrete worlds meet the assumptions *)

Module ScenarioFacts.
Import Text Floating Marker Runtime Benchmark Protocol Scenarios.
Import MarkerFacts FloatFacts TraceFacts.

(** [modest], from what the search finds in each text. *)
Lemma modest_by_search P :
  (forall h c rc out g,
     resp (backend P h c) = Completed rc out ->
     re_search out = Some g ->
     (String.length g <= 4300)%nat /\ decimal g < 2 ^ 1023) ->
  modest P.
Proof.
  intros H h c rc out i Hr Hi.
  exact (H h c rc out _ Hr (re_search_first _ _ Hi)).
Qed.

Lemma small_number g n v :
  String.length g = n -> decimal g = v ->
  (n <=? 4300)%nat = true -> (v <? 2 ^ 1023) = true ->
  (String.length g <= 4300)%nat /\ decimal g < 2 ^ 1023.
Proof.
  intros <- <- Hn Hv. split; [apply Nat.leb_le, Hn | apply Z.ltb_lt, Hv].
Qed.

Lemma silent_steady : steady_clock silent.
Proof. split; intros; cbn; lia. Qed.

Lemma silent_completes : always_completes silent.
Proof. intros h c. cbn. eauto. Qed.

Lemma silent_never_marked service_name : never_marked silent service_name.
Proof.
  intros h c rc out Hr _ j. cbn in Hr. injection Hr as _ <-. apply occurs_at_empty.
Qed.

Lemma silent_prompt : bounded_delays silent 0 0.
Proof. split; intros; cbn; lia. Qed.

Lemma silent_modest : modest silent.
Proof.
  apply modest_by_search. intros h c rc out g Hr Hs. cbn in Hr.
  injection Hr as _ <-. discriminate.
Qed.

Lemma garbled_steady : steady_clock garbled.
Proof. split; intros; cbn; lia. Qed.

Lemma garbled_completes : always_completes garbled.
Proof. intros h c. cbn. destruct (is_logs c); eauto. Qed.

Lemma garbled_malformed service_name : always_malformed garbled service_name.
Proof.
  intros h c rc out Hr Ha. cbn in Hr. unfold is_logs in Hr. rewrite Ha in Hr.
  cbn in Hr. injection Hr as _ <-. split; [reflexivity|].
  apply no_occurrence_search. reflexivity.
Qed.

Lemma quick_steady : steady_clock quick.
Proof. split; intros; cbn; lia. Qed.

Lemma quick_completes : always_completes quick.
Proof.
  intros h c. cbn. destruct (is_logs c); [destruct (String.eqb _ _)|]; eauto.
Qed.

Lemma quick_reports_lua : reports quick "app-lua" 120.
Proof.
  intros h c Hc. exists 0, "app-lua-1  | TOTAL_TIME_MS: 120", 13%nat.
  split; [cbn; unfold is_logs, service; rewrite Hc; reflexivity|].
  split; [|split; [vm_compute; lia | reflexivity]]. split; [reflexivity|].
  intros j Hj. do 13 (destruct j as [|j]; [reflexivity|]). lia.
Qed.

Lemma quick_reports_redlock : reports quick "app-redlock" 300.
Proof.
  intros h c Hc. exists 0, "app-redlock-1  | TOTAL_TIME_MS: 300", 17%nat.
  split; [cbn; unfold is_logs, service; rewrite Hc; reflexivity|].
  split; [|split; [vm_compute; lia | reflexivity]]. split; [reflexivity|].
  intros j Hj. do 17 (destruct j as [|j]; [reflexivity|]). lia.
Qed.

Lemma quick_modest : modest quick.
Proof.
  apply modest_by_search. intros h c rc out g Hr Hs. cbn in Hr.
  destruct (is_logs c); [destruct (String.eqb _ _)|];
    injection Hr as _ <-; vm_compute in Hs; try discriminate;
    injection Hs as <-;
    (eapply small_number; [reflexivity | reflexivity | reflexivity | reflexivity]).
Qed.

Lemma late_completes : always_completes late.
Proof. intros h c. cbn. destruct (is_logs c); eauto. Qed.

Lemma lua_down_steady : steady_clock lua_down.
Proof. split; intros; cbn; lia. Qed.

Lemma lua_down_completes : always_completes lua_down.
Proof.
  intros h c. cbn. destruct (is_logs c); [destruct (String.eqb _ _)|]; eauto.
Qed.

Lemma lua_down_never_marked : never_marked lua_down "app-lua".
Proof.
  intros h c rc out Hr Ha j. cbn in Hr. unfold is_logs, service in Hr.
  rewrite Ha in Hr. cbn in Hr. injection Hr as _ <-. apply occurs_at_empty.
Qed.

Lemma lua_down_modest : modest lua_down.
Proof.
  apply modest_by_search. intros h c rc out g Hr Hs. cbn in Hr.
  destruct (is_logs c); [destruct (String.eqb _ _)|];
    injection Hr as _ <-; vm_compute in Hs; try discriminate;
    injection Hs as <-;
    (eapply small_number; [reflexivity | reflexivity | reflexivity | reflexivity]).
Qed.

(** The model on the hard-coded sweep of [main]: the whole table. *)
Example main_prints_table :
  map render (printed (trace (final (main quick 1 host)))) =
  ["Consumers  | Lua (ms)   | Redlock (ms)    | Diff (%)  ";
   "-------------------------------------------------------";
   "Running benchmark for lua with 5 consumers and 50ms work...";
   "Running benchmark for redlock with 5 consumers and 50ms work...";
   "5          | 120        | 300             |   150.00%";
   "Running benchmark for lua with 10 consumers and 50ms work...";
   "Running benchmark for redlock with 10 consumers and 50ms work...";
   "10         | 120        | 300             |   150.00%";
   "Running benchmark for lua with 100 consumers and 50ms work...";
   "Running benchmark for redlock with 100 consumers and 50ms work...";
   "100        | 120        | 300             |   150.00%";
   "Running benchmark for lua with 200 consumers and 50ms work...";
   "Running benchmark for redlock with 200 consumers and 50ms work...";
   "200        | 120        | 300             |   150.00%"].
Proof. vm_compute. reflexivity. Qed.

(** A Lua trial that times out leaves a row of zeros and the Redlock trial
    still runs. *)
Example degraded_row :
  map render (printed (trace (final (sweep garbled 62 [5] 50 host)))) =
  ["Running benchmark for lua with 5 consumers and 50ms work...";
   "Timeout waiting for lua";
   "Running benchmark for redlock with 5 consumers and 50ms work...";
   "Timeout waiting for redlock";
   "5          | 0          | 0               |     0.00%"].
Proof. vm_compute. reflexivity. Qed.

(** Only the Lua trial times out: the Redlock time is printed and the
    difference is 0. *)
Example half_degraded_row :
  map render (printed (trace (final (sweep lua_down 62 [5] 50 host)))) =
  ["Running benchmark for lua with 5 consumers and 50ms work...";
   "Timeout waiting for lua";
   "Running benchmark for redlock with 5 consumers and 50ms work...";
   "5          | 0          | 300             |     0.00%"].
Proof. vm_compute. reflexivity. Qed.

(** A number of 4301 digits in the logs: [int] raises, after reset, start
    and one fetch. *)
Example overlong_raises :
  exists w',
    run_benchmark overlong 5 "lua" 5 50 host = Exc ValueError w' /\
    map argv (calls (trace w')) =
      [down_args "lua"; up_args "lua"; logs_args "app-lua"].
Proof. eexists. split; vm_compute; reflexivity. Qed.

(** A Redlock time of [10^400] against a Lua time of 1: the division
    raises, and no row is printed. *)
Example lopsided_raises :
  exists w',
    sweep lopsided 1 [5] 50 host = Exc OverflowError w' /\
    row_counts (trace w') = [].
Proof. eexists. split; vm_compute; reflexivity. Qed.

Example str_examples :
  str 5 = "5" /\ str 200 = "200" /\ str 50 = "50" /\ str 0 = "0" /\
  str (-7) = "-7".
Proof. repeat split. Qed.

Example fixed2_examples :
  fixed2 (Finite false (1234 # 100)) = "12.34" /\
  fixed2 (Finite true (1 # 3)) = "-0.33" /\
  fixed2 zero = "0.00" /\ fixed2 (Finite true 0) = "-0.00" /\
  fixed2 (Finite false (200 # 3)) = "66.67" /\
  fixed2 (Infinite false) = "inf".
Proof. repeat split. Qed.

(** The arithmetic is that of floats: Lua 160, Redlock 183 gives
    14.374999999999998, printed as 14.37, where the exact quotient 14.375
    would be printed as 14.38. *)
Example percent_diff_is_rounded :
  exists d,
    percent_diff 160 183 host = Ret d host /\
    d = Finite false (8092405580431359 # 562949953421312) /\
    fixed2 d = "14.37" /\
    fixed2 (Finite false (14375 # 1000)) = "14.38".
Proof. eexists. repeat split; vm_compute; reflexivity. Qed.

End ScenarioFacts.

(** ** The claims *)

Module Claims.
Import Text Floating Marker Runtime Benchmark Protocol Stated Scenarios.
Import MarkerFacts PollFacts TrialFacts FloatFacts SweepFacts TraceFacts.
Import ScenarioFacts.

(** C2.  Marker extraction: when the fetched text has an occurrence of
    [TOTAL_TIME_MS: <integer>], with an integer of at most 4300 digits (the
    most [int] takes), what lines 27-31 extract is the integer written at
    the first occurrence; when the text has no occurrence, they extract
    nothing and the loop goes on to its timeout test. *)
Theorem scan_logs_first_marker s w :
  (forall i, first_occurrence s i ->
     (run_length s (i + 15) <= 4300)%nat ->
     scan_logs s w = Ret (Some (integer_at s (i + 15))) w) /\
  (no_occurrence s -> scan_logs s w = Ret None w).
Proof.
  split.
  - intros i Hi Hl. rewrite scan_logs_search, (re_search_first _ _ Hi).
    unfold run_length in Hl. apply Nat.leb_le in Hl.
    unfold MAX_STR_DIGITS. rewrite Hl. reflexivity.
  - intros Hn. rewrite scan_logs_search, (re_search_none _ Hn). reflexivity.
Qed.

Lemma scan_logs_first_marker_witness :
  scan_logs "...noise... TOTAL_TIME_MS: 1234 ...more noise..." host
    = Ret (Some 1234) host /\
  scan_logs "...noise... more noise, TOTAL_TIME_MS: soon" host = Ret None host.
Proof.
  split.
  - apply (proj1 (scan_logs_first_marker
             "...noise... TOTAL_TIME_MS: 1234 ...more noise..." host) 12%nat).
    + split; [reflexivity|].
      intros j Hj. do 12 (destruct j as [|j]; [reflexivity|]). lia.
    + vm_compute. lia.
  - apply (proj2 (scan_logs_first_marker _ host)).
    apply no_occurrence_search. reflexivity.
Defined.

(** C1, as stated, fails where the log fetch raises: the exception leaves
    [run_benchmark] after reset, start and one fetch, and no teardown
    follows. *)
Lemma teardown_skipped_on_raise :
  ~ teardown_always crashing 5 "lua" 5 50 host.
Proof. unfold teardown_always. vm_compute. discriminate. Qed.

(** C1, amended.  With a steady clock a trial ends, by returning or by
    raising.  A trial that returns, on success or on timeout, has torn the
    environment down exactly once after starting it, as its last action; a
    fetch that fails softly (any exit status, any output) is an ordinary
    fruitless poll.  A trial that raises does so at its last event, a call
    to the backend: the reset, the start or a fetch, and then the
    environment has not been torn down; or the teardown itself, after a loop
    that ended.  What is raised is what that call raised, or, at a fetch,
    the [ValueError] of [int] on a number of more than 4300 digits. *)
Theorem teardown_once_on_return P fuel profile consumers work_duration w :
  let host := environ w in
  let dc := down_call host profile consumers work_duration in
  let uc := up_call host profile consumers work_duration in
  let lc := logs_call host profile consumers work_duration in
  let announce := Printed (Announce profile consumers work_duration) in
  let head := [announce; Ran dc; Ran uc] in
  (steady_clock P -> (62 <= fuel)%nat ->
   forall w', run_benchmark P fuel profile consumers work_duration w
              <> Fuel w') /\
  match run_benchmark P fuel profile consumers work_duration w with
  | Ret _ w' =>
      trial_events host profile consumers work_duration (since w w') /\
      teardowns profile (since w w') = 1%nat
  | Exc e w' =>
      exists evs c,
        since w w' = evs ++ [Ran c] /\
        raised_by P (trace w ++ evs) c e /\
        ((evs = [announce] /\ c = dc /\
          teardowns profile (since w w') = 0%nat)
         \/ (evs = [announce; Ran dc] /\ c = uc /\
             teardowns profile (since w w') = 0%nat)
         \/ ((exists n, evs = head ++ turns lc n) /\ c = lc /\
             teardowns profile (since w w') = 0%nat)
         \/ ((exists polling,
                loop_ended P (trace w ++ head) lc profile polling /\
                evs = head ++ polling) /\ c = dc /\
             teardowns profile (since w w') = 1%nat))
  | Fuel _ => True
  end.
Proof.
  intros host dc uc lc announce head. split.
  { intros Hs Hf w'. apply run_benchmark_ends; assumption. }
  pose proof (run_benchmark_cases P fuel profile consumers work_duration w) as Hc.
  cbv zeta in Hc. fold host dc uc lc announce in Hc. fold head in Hc.
  destruct Hc as (_ & evs & Ht & Hc).
  destruct (run_benchmark _ _ _ _ _ _) as [v w'|e w'|w'] eqn:H; [| |exact I];
    cbn [final] in Ht; rewrite (since_app _ _ _ Ht).
  - destruct (run_benchmark_ret _ _ _ _ _ _ _ _ H) as (_ & _ & _ & evs' & Ht' & Hev).
    assert (evs' = evs) as ->
      by (rewrite Ht in Ht'; eapply app_inv_head; symmetry; exact Ht').
    split; [exact Hev|]. eapply teardowns_trial; exact Hev.
  - destruct Hc as [(err & -> & Hr & ->)|[(err & -> & Hr & ->)|[(n & _ & Hr & ->)
                   |(err & polling & -> & Hl & Hr & ->)]]].
    + exists [announce], dc. split; [reflexivity|].
      split; [left; exists err; split; [reflexivity | exact Hr]|].
      left. split; [reflexivity|]. split; [reflexivity|]. apply teardowns_reset.
    + exists [announce; Ran dc], uc. split; [reflexivity|].
      split; [left; exists err; split; [reflexivity | exact Hr]|].
      right. left. split; [reflexivity|]. split; [reflexivity|].
      unfold head. rewrite <- (app_nil_r [_; _; _]).
      unfold announce, dc, uc. rewrite teardowns_head. reflexivity.
    + exists (head ++ turns lc n), lc. split; [rewrite <- app_assoc; reflexivity|].
      split; [exact Hr|].
      right. right. left. split; [exists n; reflexivity|].
      split; [reflexivity|]. apply teardowns_fetching.
    + exists (head ++ polling), dc. split; [rewrite <- app_assoc; reflexivity|].
      split; [left; exists err; split; [reflexivity | exact Hr]|].
      right. right. right. split; [exists polling; split; [exact Hl | reflexivity]|].
      split; [reflexivity|].
      apply (teardowns_trial host profile consumers work_duration).
      exists polling. split; [|reflexivity].
      eapply loop_ended_polling; exact Hl.
Qed.

Lemma teardown_once_on_return_witness :
  (forall w', run_benchmark silent 62 "lua" 5 50 host <> Fuel w') /\
  match run_benchmark silent 62 "lua" 5 50 host with
  | Ret _ w' =>
      trial_events (environ host) "lua" 5 50 (since host w') /\
      teardowns "lua" (since host w') = 1%nat
  | _ => False
  end.
Proof.
  destruct (teardown_once_on_return silent 62 "lua" 5 50 host) as [H1 H2].
  split; [apply H1; [exact silent_steady | lia]|].
  assert (Hret : match run_benchmark silent 62 "lua" 5 50 host with
                 | Ret _ _ => True
                 | _ => False
                 end) by (vm_compute; exact I).
  destruct (run_benchmark silent 62 "lua" 5 50 host) as [v w'|e w'|w'];
    [exact H2 | contradiction | contradiction].
Defined.

(** C3, as stated, fails when a fetch takes time: with two seconds per
    fetch the loop is left 62 seconds after its start. *)
Lemma poll_overruns_61s : ~ timeout_bound sluggish "lua" OsEnviron host.
Proof.
  intros H.
  assert (Hn : never_marked sluggish ("app-" +:+ "lua")).
  { intros h c rc out Hr _ j. cbn in Hr. injection Hr as _ <-. apply occurs_at_empty. }
  specialize (H Hn 62%nat).
  assert (Hc : clock (final (poll sluggish 62 "lua" ("app-" +:+ "lua") OsEnviron
                               (clock host) 0 host)) = 62000)
    by (vm_compute; reflexivity).
  destruct (poll sluggish 62 "lua" ("app-" +:+ "lua") OsEnviron (clock host) 0 host)
    as [v w'|e w'|w'] eqn:E.
  - specialize (H v w' eq_refl). cbn in Hc, H. lia.
  - vm_compute in E. discriminate.
  - vm_compute in E. discriminate.
Qed.

(** C3, amended.  If the marker never appears, the clock is steady, a
    fetch lasts at most [d] and a sleep oversleeps by at most [j], the loop
    ends after at most 62 fetches, with [total_time_ms] still 0, and at most
    60 s + (1 s + [j]) + [d] after its start: 61 s when fetches take no
    time and sleeps are exact. *)
Theorem poll_ends_within_budget P d j profile env fuel w :
  steady_clock P -> bounded_delays P d j ->
  never_marked P ("app-" +:+ profile) -> (62 <= fuel)%nat ->
  match poll P fuel profile ("app-" +:+ profile) env (clock w) 0 w with
  | Ret v w' =>
      v = 0 /\ clock w' - clock w <= 60000 + (1000 + j) + d /\
      (length (calls (since w w')) <= 62)%nat
  | Exc _ w' =>
      clock w' - clock w <= 60000 + (1000 + j) + d /\
      (length (calls (since w w')) <= 62)%nat
  | Fuel _ => False
  end.
Proof.
  intros Hs Hb Hm Hf.
  assert (Hj : 0 <= j).
  { destruct Hs as [_ Hs], Hb as [_ Hb]. specialize (Hs [] 0). specialize (Hb [] 0). lia. }
  assert (Hend : forall w', poll P 62 profile ("app-" +:+ profile) env (clock w) 0 w <> Fuel w').
  { intros w'. apply poll_not_fuel; [exact Hs | lia | lia]. }
  rewrite (poll_more_fuel P _ _ _ _ _ 62 fuel w Hf Hend).
  pose proof (poll_elapsed P profile ("app-" +:+ profile) env (clock w) 0 d j Hb 62 w) as He.
  pose proof (poll_cases P profile ("app-" +:+ profile) env (clock w) 0 62 w) as Hc.
  cbv zeta in Hc. destruct Hc as (_ & _ & n & Hc).
  destruct (poll P 62 _ _ _ _ _ w) as [v w'|e w'|w'].
  - specialize (He ltac:(lia)). destruct Hc as [Hn Hc].
    destruct Hc as [(rc & out & g & H1 & H2 & _)|(H1 & H2 & H3)].
    + pose proof (Hm _ _ _ _ H1 eq_refl) as Hno.
      apply re_search_none in Hno. congruence.
    + split; [exact H1|]. split; [lia|].
      rewrite (since_app _ _ _ H3), calls_app, calls_turns, length_app, length_replicate.
      cbn. lia.
  - specialize (He ltac:(lia)). destruct Hc as (Hn & _ & H3).
    split; [lia|].
    rewrite (since_app _ _ _ H3), calls_app, calls_turns, length_app, length_replicate.
    cbn. lia.
  - exact (Hend w' eq_refl).
Qed.

Lemma poll_ends_within_budget_witness :
  match poll silent 62 "lua" ("app-" +:+ "lua") OsEnviron (clock host) 0 host with
  | Ret v w' =>
      v = 0 /\ clock w' - clock host <= 60000 + (1000 + 0) + 0 /\
      (length (calls (since host w')) <= 62)%nat
  | Exc _ w' =>
      clock w' - clock host <= 60000 + (1000 + 0) + 0 /\
      (length (calls (since host w')) <= 62)%nat
  | Fuel _ => False
  end.
Proof.
  apply (poll_ends_within_budget silent 0 0 "lua" OsEnviron 62 host).
  - exact silent_steady.
  - exact silent_prompt.
  - exact (silent_never_marked _).
  - lia.
Defined.

(** C4.  A trial whose loop timed out prints the notice naming its own
    profile and returns 0.  With a steady clock and a backend that always
    answers, a trial that never sees the marker does end that way; and when
    the times the logs show are modest (at most 4300 digits, below
    [2^1023]), the sweep goes on to every later trial, whichever trials
    timed out: it returns with one row per count. *)
Theorem timeout_degrades_not_aborts P fuel :
  (forall profile consumers work_duration w v w' p,
     run_benchmark P fuel profile consumers work_duration w = Ret v w' ->
     In (TimeoutNotice p) (printed (since w w')) ->
     v = 0 /\ p = profile /\
     render (TimeoutNotice p) = "Timeout waiting for " +:+ profile) /\
  (steady_clock P -> always_completes P -> (62 <= fuel)%nat ->
   (forall profile consumers work_duration w,
      never_marked P ("app-" +:+ profile) ->
      exists w',
        run_benchmark P fuel profile consumers work_duration w = Ret 0 w' /\
        printed (since w w') =
          [Announce profile consumers work_duration; TimeoutNotice profile]) /\
   (modest P ->
    forall consumer_counts work_duration w,
      exists w',
        sweep P fuel consumer_counts work_duration w = Ret tt w' /\
        row_counts (since w w') = consumer_counts)).
Proof.
  split.
  - intros profile consumers work_duration w v w' p H Hin.
    pose proof (run_benchmark_cases P fuel profile consumers work_duration w) as Hc.
    cbv zeta in Hc. rewrite H in Hc. cbn [final] in Hc.
    destruct Hc as (_ & evs & Ht & n & _ & Hc).
    rewrite (since_app _ _ _ Ht) in Hin.
    destruct Hc as [(rc & out & g & _ & _ & _ & _ & ->)|(Hv & ->)];
      rewrite !printed_app, printed_turns in Hin; cbn in Hin.
    + destruct Hin as [Hin|[]]. discriminate.
    + destruct Hin as [Hin|[Hin|[]]]; [discriminate|].
      injection Hin as <-. auto.
  - intros Hs Ha Hf. split.
    + intros profile consumers work_duration w Hm.
      destruct (run_benchmark_timeout P fuel profile consumers work_duration w Hs Ha Hm Hf)
        as (w' & n & H & _ & Ht).
      exists w'. split; [exact H|]. rewrite (since_app _ _ _ Ht).
      rewrite !printed_app, printed_turns. reflexivity.
    + intros Hm consumer_counts work_duration w.
      destruct (sweep_returns P fuel work_duration consumer_counts w Hs Ha Hm Hf)
        as (w' & H).
      exists w'. split; [exact H|].
      pose proof (sweep_cases P fuel work_duration consumer_counts w) as Hc.
      cbv zeta in Hc. rewrite H in Hc. cbn [final] in Hc.
      destruct Hc as (_ & evs & Ht & _ & _ & _ & Hr).
      rewrite (since_app _ _ _ Ht). exact Hr.
Qed.

Lemma timeout_degrades_not_aborts_witness :
  (0 = 0 /\ "lua" = "lua" /\
   render (TimeoutNotice "lua") = "Timeout waiting for " +:+ "lua") /\
  (exists w',
     run_benchmark lua_down 62 "lua" 5 50 host = Ret 0 w' /\
     printed (since host w') = [Announce "lua" 5 50; TimeoutNotice "lua"]) /\
  (exists w',
     sweep lua_down 62 [5; 10] 50 host = Ret tt w' /\
     row_counts (since host w') = [5; 10]).
Proof.
  destruct (timeout_degrades_not_aborts lua_down 62) as [H0 H].
  destruct (H lua_down_steady lua_down_completes ltac:(lia)) as [H1 H2].
  split; [|split].
  - apply (H0 "lua" 5 50 host 0
             (final (run_benchmark lua_down 62 "lua" 5 50 host)) "lua").
    + vm_compute. reflexivity.
    + vm_compute. right. left. reflexivity.
  - exact (H1 "lua" 5 50 host lua_down_never_marked).
  - exact (H2 lua_down_modest [5; 10] 50 host).
Defined.



(** C6, as stated, fails: when every fetched text is [TOTAL_TIME_MS: abc]
    the trial does not raise; it times out and returns 0. *)
Lemma malformed_marker_times_out :
  ~ malformed_fails_hard garbled 62 "lua" 5 50 host.
Proof.
  intros H. destruct (H (garbled_malformed _)) as (e & w' & E).
  assert (Hret : match run_benchmark garbled 62 "lua" 5 50 host with
                 | Ret _ _ => True
                 | _ => False
                 end) by (vm_compute; exact I).
  rewrite E in Hret. exact Hret.
Qed.

(** C6, amended.  A text with the marker text but no integer after it is
    a text without the marker: the scan yields nothing and raises nothing.
    If every fetched text is like that, the trial polls until the timeout,
    prints the notice, tears down once and returns 0. *)
Theorem malformed_marker_is_no_match P fuel profile consumers work_duration w :
  steady_clock P -> always_completes P ->
  always_malformed P ("app-" +:+ profile) -> (62 <= fuel)%nat ->
  (forall s w0, malformed s -> scan_logs s w0 = Ret None w0) /\
  exists w',
    run_benchmark P fuel profile consumers work_duration w = Ret 0 w' /\
    printed (since w w') =
      [Announce profile consumers work_duration; TimeoutNotice profile] /\
    teardowns profile (since w w') = 1%nat.
Proof.
  intros Hs Ha Hm Hf. split.
  - intros s w0 [_ Hn]. rewrite scan_logs_search, (re_search_none _ Hn). reflexivity.
  - assert (Hnm : never_marked P ("app-" +:+ profile)).
    { intros h c rc out Hr Hc. exact (proj2 (Hm h c rc out Hr Hc)). }
    destruct (run_benchmark_timeout P fuel profile consumers work_duration w Hs Ha Hnm Hf)
      as (w' & n & H & _ & Ht).
    exists w'. split; [exact H|]. rewrite (since_app _ _ _ Ht). split.
    + rewrite !printed_app, printed_turns. reflexivity.
    + apply (teardowns_trial (environ w) profile consumers work_duration).
      eexists. split; [|reflexivity]. apply polled_timeout.
Qed.

Lemma malformed_marker_is_no_match_witness :
  exists w',
    run_benchmark garbled 62 "lua" 5 50 host = Ret 0 w' /\
    printed (since host w') = [Announce "lua" 5 50; TimeoutNotice "lua"] /\
    teardowns "lua" (since host w') = 1%nat.
Proof.
  exact (proj2 (malformed_marker_is_no_match garbled 62 "lua" 5 50 host
                  garbled_steady garbled_completes (garbled_malformed _)
                  ltac:(lia))).
Defined.

(** C7.  The scenario: counts [5], work duration 50, the Lua logs show
    [TOTAL_TIME_MS: 120] and the Redlock logs [TOTAL_TIME_MS: 300] from the
    first fetch.  The row printed has the fields 5, 120, 300 and the float
    150.0, printed as 150.00%; the line of text is the one given. *)
Theorem report_row_scenario P fuel w :
  always_completes P -> reports P "app-lua" 120 -> reports P "app-redlock" 300 ->
  (0 < fuel)%nat ->
  exists w' diff,
    sweep P fuel [5] 50 w = Ret tt w' /\
    printed (since w w') =
      [Announce "lua" 5 50; Announce "redlock" 5 50; Row 5 120 300 diff] /\
    diff = Finite false 150 /\
    fixed2 diff +:+ "%" = "150.00%" /\
    render (Row 5 120 300 diff) =
      "5          | 120        | 300             |   150.00%".
Proof.
  intros Ha Hl Hr Hf. cbn [sweep]. unfold bind, print.
  destruct (Hl (trace w ++ [Printed (Announce "lua" 5 50);
                            Ran (down_call (environ w) "lua" 5 50);
                            Ran (up_call (environ w) "lua" 5 50)])
              (logs_call (environ w) "lua" 5 50) eq_refl)
    as (rc1 & out1 & i1 & Hr1 & Hi1 & Hn1 & Hv1).
  destruct (run_benchmark_first_fetch P fuel "lua" 5 50 w rc1 out1 _ Ha Hf Hr1
              (re_search_first _ _ Hi1) Hn1) as (w1 & -> & He1 & Ht1).
  destruct (Hr (trace w1 ++ [Printed (Announce "redlock" 5 50);
                             Ran (down_call (environ w1) "redlock" 5 50);
                             Ran (up_call (environ w1) "redlock" 5 50)])
              (logs_call (environ w1) "redlock" 5 50) eq_refl)
    as (rc2 & out2 & i2 & Hr2 & Hi2 & Hn2 & Hv2).
  destruct (run_benchmark_first_fetch P fuel "redlock" 5 50 w1 rc2 out2 _ Ha Hf Hr2
              (re_search_first _ _ Hi2) Hn2) as (w2 & -> & He2 & Ht2).
  unfold integer_at in Hv1, Hv2. rewrite Hv1, Hv2.
  assert (Hd : percent_diff 120 300 w2 = Ret (Finite false 150) w2)
    by (vm_compute; reflexivity).
  rewrite Hd.
  eexists. eexists. split; [reflexivity|]. split.
  - erewrite since_app;
      [|cbn [trace record]; rewrite Ht2, Ht1, <- !app_assoc; reflexivity].
    reflexivity.
  - split; [reflexivity|]. split; reflexivity.
Qed.

Lemma report_row_scenario_witness :
  exists w' diff,
    sweep quick 1 [5] 50 host = Ret tt w' /\
    printed (since host w') =
      [Announce "lua" 5 50; Announce "redlock" 5 50; Row 5 120 300 diff] /\
    diff = Finite false 150 /\
    fixed2 diff +:+ "%" = "150.00%" /\
    render (Row 5 120 300 diff) =
      "5          | 120        | 300             |   150.00%".
Proof.
  exact (report_row_scenario quick 1 host quick_completes quick_reports_lua
           quick_reports_redlock ltac:(lia)).
Defined.

(** C8.  The rows printed are those of the counts, in the order of the
    list (a prefix of them if the sweep is cut short), and the events of a
    sweep that returns are, count by count, the whole Lua trial, then the
    whole Redlock trial, then the row.  With a steady clock, a backend that
    always answers and modest times in the logs (at most 4300 digits, below
    [2^1023]), the sweep does return. *)
Theorem sweep_order P fuel consumer_counts work_duration w :
  row_counts (since w (final (sweep P fuel consumer_counts work_duration w)))
    `prefix_of` consumer_counts /\
  (forall w',
     sweep P fuel consumer_counts work_duration w = Ret tt w' ->
     sweep_events (environ w) work_duration consumer_counts (since w w') /\
     row_counts (since w w') = consumer_counts) /\
  (steady_clock P -> always_completes P -> modest P -> (62 <= fuel)%nat ->
   exists w', sweep P fuel consumer_counts work_duration w = Ret tt w').
Proof.
  pose proof (sweep_cases P fuel work_duration consumer_counts w) as Hc.
  cbv zeta in Hc. destruct Hc as (_ & evs & Ht & _ & Hp & Hc).
  rewrite (since_app _ _ _ Ht). split; [exact Hp|]. split.
  - intros w' H. rewrite H in Ht, Hc. cbn [final] in Ht.
    rewrite (since_app _ _ _ Ht). exact Hc.
  - intros Hs Ha Hm Hf. apply sweep_returns; assumption.
Qed.

Lemma sweep_order_witness :
  (exists w', sweep quick 62 [5; 10] 50 host = Ret tt w') /\
  sweep_events (environ host) 50 [5; 10]
    (since host (final (sweep quick 1 [5; 10] 50 host))) /\
  row_counts (since host (final (sweep quick 1 [5; 10] 50 host))) = [5; 10].
Proof.
  split.
  - apply (proj2 (proj2 (sweep_order quick 62 [5; 10] 50 host)));
      [exact quick_steady | exact quick_completes | exact quick_modest | lia].
  - apply (proj1 (proj2 (sweep_order quick 1 [5; 10] 50 host))).
    vm_compute. reflexivity.
Defined.

(** C9.  The loop begins with a fetch, whatever the clock says.  If the
    text of the first fetch has the marker, with a number of at most 4300
    digits, the trial returns the integer at its first occurrence and prints
    no timeout notice; nothing is assumed about how long the fetch took, so
    it may have taken more than the 60 seconds of the budget. *)
Theorem first_fetch_wins P fuel profile consumers work_duration w rc out i :
  always_completes P -> (0 < fuel)%nat ->
  resp (backend P
          (trace w ++
           [Printed (Announce profile consumers work_duration);
            Ran (down_call (environ w) profile consumers work_duration);
            Ran (up_call (environ w) profile consumers work_duration)])
          (logs_call (environ w) profile consumers work_duration))
  = Completed rc out ->
  first_occurrence out i ->
  (run_length out (i + 15) <= 4300)%nat ->
  (exists w',
     run_benchmark P fuel profile consumers work_duration w
     = Ret (integer_at out (i + 15)) w' /\
     printed (since w w') = [Announce profile consumers work_duration]) /\
  (forall env start_time total_time_ms w0, exists rest,
     since w0 (final (poll P fuel profile ("app-" +:+ profile) env
                        start_time total_time_ms w0))
     = Ran {| argv := logs_args ("app-" +:+ profile);
              call_env := deref env w0 |} :: rest).
Proof.
  intros Ha Hf Hr Hi Hl. split.
  - destruct (run_benchmark_first_fetch P fuel profile consumers work_duration w
                rc out _ Ha Hf Hr (re_search_first _ _ Hi) Hl) as (w' & H & _ & Ht).
    exists w'. split; [exact H|]. rewrite (since_app _ _ _ Ht). reflexivity.
  - intros env start_time total_time_ms w0. apply poll_fetches_first, Hf.
Qed.

Lemma first_fetch_wins_witness :
  60000 < took (backend late [] (logs_call (environ host) "lua" 5 50)) /\
  exists w',
    run_benchmark late 1 "lua" 5 50 host = Ret 1234 w' /\
    printed (since host w') = [Announce "lua" 5 50].
Proof.
  split; [reflexivity|].
  refine (proj1 (first_fetch_wins late 1 "lua" 5 50 host 0 "TOTAL_TIME_MS: 1234"
                   0%nat late_completes ltac:(lia) eq_refl _ _)).
  - split; [reflexivity|]. intros j Hj. lia.
  - vm_compute. lia.
Defined.

(** C10.  Every call of a trial, however the trial ends, is given the
    same mapping: the host's environment with [NUM_CONSUMERS] and
    [WORK_DURATION] set to [str(consumers)] and [str(work_duration)], all
    other variables as in the host.  The host's own environment is the same
    after the trial as before. *)
Theorem trial_environment P fuel profile consumers work_duration w :
  let o := run_benchmark P fuel profile consumers work_duration w in
  let E := trial_env (environ w) consumers work_duration in
  environ (final o) = environ w /\
  Forall (given E) (since w (final o)) /\
  E !! "NUM_CONSUMERS" = Some (str consumers) /\
  E !! "WORK_DURATION" = Some (str work_duration) /\
  forall k, k <> "NUM_CONSUMERS" -> k <> "WORK_DURATION" ->
    E !! k = environ w !! k.
Proof.
  cbv zeta.
  destruct (run_benchmark_given P fuel profile consumers work_duration w) as [He Hg].
  split; [exact He|]. split; [exact Hg|]. apply trial_env_lookup.
Qed.

Lemma trial_environment_witness :
  environ (final (run_benchmark crashing 5 "lua" 5 50 host)) = environ host /\
  Forall (given (trial_env (environ host) 5 50))
    (since host (final (run_benchmark crashing 5 "lua" 5 50 host))) /\
  trial_env (environ host) 5 50 !! "NUM_CONSUMERS" = Some "5" /\
  trial_env (environ host) 5 50 !! "WORK_DURATION" = Some "50" /\
  trial_env (environ host) 5 50 !! "PATH" = Some "/usr/bin".
Proof.
  destruct (trial_environment crashing 5 "lua" 5 50 host)
    as (H1 & H2 & H3 & H4 & H5).
  split; [exact H1|]. split; [exact H2|]. split; [exact H3|].
  split; [exact H4|].
  rewrite (H5 "PATH") by discriminate. reflexivity.
Defined.

End Claims.

(** ** Further facts: appended text, budgets, the clock *)

Module MoreFacts.
Import Text Floating Marker Runtime Benchmark Protocol Scenarios Measures.
Import MarkerFacts PollFacts TrialFacts FloatFacts SweepFacts TraceFacts.
Import ScenarioFacts.

(** *** Text appended to a fetched text *)

Lemma length_append s t :
  String.length (s +:+ t) = (String.length s + String.length t)%nat.
Proof.
  induction s as [|c s IH]; [reflexivity|].
  change (String c s +:+ t) with (String c (s +:+ t)). cbn. f_equal. exact IH.
Qed.

Lemma strip_length p s r :
  strip p s = Some r ->
  String.length s = (String.length p + String.length r)%nat.
Proof.
  revert s. induction p as [|a p IH]; intros s H.
  - destruct s; injection H as <-; reflexivity.
  - destruct s as [|b s]; [discriminate|]. cbn in H.
    destruct (Ascii.eqb a b); [|discriminate]. cbn. f_equal. apply IH, H.
Qed.

Lemma strip_app p s t r :
  strip p s = Some r -> strip p (s +:+ t) = Some (r +:+ t).
Proof.
  revert s. induction p as [|a p IH]; intros s H.
  - destruct s; injection H as <-; reflexivity.
  - destruct s as [|b s]; [discriminate|]. cbn in H.
    change (String b s +:+ t) with (String b (s +:+ t)). cbn.
    destruct (Ascii.eqb a b); [|discriminate]. apply IH, H.
Qed.

Lemma strip_app_none p s t :
  strip p s = None -> (String.length p <= String.length s)%nat ->
  strip p (s +:+ t) = None.
Proof.
  revert s. induction p as [|a p IH]; intros s H Hl.
  - destruct s; discriminate.
  - destruct s as [|b s]; [cbn in Hl; lia|]. cbn in H, Hl.
    change (String b s +:+ t) with (String b (s +:+ t)). cbn.
    destruct (Ascii.eqb a b); [|reflexivity]. apply IH; [exact H | lia].
Qed.

Lemma digit_run_app r t :
  exists g',
    all_digits g' = true /\
    digit_run (r +:+ t) = digit_run r +:+ g' /\
    (digit_run t = EmptyString -> g' = EmptyString) /\
    (digit_run r = EmptyString -> r <> EmptyString -> g' = EmptyString).
Proof.
  induction r as [|c r IH].
  - exists (digit_run t). split; [apply all_digits_run|].
    split; [reflexivity|]. split; [auto | congruence].
  - change (String c r +:+ t) with (String c (r +:+ t)). cbn [digit_run].
    destruct (isdigit c).
    + destruct IH as (g' & Hd & He & Ht & _). exists g'.
      split; [exact Hd|]. split; [rewrite He; reflexivity|].
      split; [exact Ht | discriminate].
    + exists EmptyString. repeat split; reflexivity.
Qed.

Lemma match_here_length s g :
  match_here s = Some g -> (16 <= String.length s)%nat.
Proof.
  unfold match_here. destruct (strip PATTERN_PREFIX s) as [r|] eqn:Hs; [|discriminate].
  apply strip_length in Hs. change (String.length PATTERN_PREFIX) with 15%nat in Hs.
  destruct r as [|c r]; [discriminate|]. cbn in Hs. intros _. lia.
Qed.

Lemma re_search_length s g :
  re_search s = Some g -> (16 <= String.length s)%nat.
Proof.
  induction s as [|a s IH]; rewrite re_search_unfold;
    destruct (match_here _) as [g'|] eqn:Hm; intros H; try discriminate;
    try (eapply match_here_length; eassumption).
  cbn. specialize (IH H). lia.
Qed.

(** The pattern at the head of a text of at least sixteen characters, when
    more text is appended: the group can only grow by digits. *)
Lemma match_here_app s t :
  (16 <= String.length s)%nat ->
  exists g',
    all_digits g' = true /\
    match_here (s +:+ t) = (fun g => g +:+ g') <$> match_here s /\
    (digit_run t = EmptyString -> g' = EmptyString).
Proof.
  intros Hl. unfold match_here.
  destruct (strip PATTERN_PREFIX s) as [r|] eqn:Hs.
  - rewrite (strip_app _ _ t _ Hs).
    destruct (digit_run_app r t) as (g' & Hd & He & Ht & Hr).
    assert (Hne : r <> EmptyString).
    { apply strip_length in Hs. change (String.length PATTERN_PREFIX) with 15%nat in Hs.
      intros ->. cbn in Hs. lia. }
    rewrite He. destruct (digit_run r) as [|c x] eqn:Hrun.
    + exists EmptyString. rewrite (Hr eq_refl Hne). repeat split; reflexivity.
    + exists g'. split; [exact Hd|]. split; [reflexivity | exact Ht].
  - exists EmptyString. split; [reflexivity|]. split; [|reflexivity].
    rewrite strip_app_none; [reflexivity | exact Hs |].
    change (String.length PATTERN_PREFIX) with 15%nat. lia.
Qed.

Lemma re_search_app s t g :
  re_search s = Some g ->
  exists g',
    all_digits g' = true /\
    re_search (s +:+ t) = Some (g +:+ g') /\
    (digit_run t = EmptyString -> g' = EmptyString).
Proof.
  induction s as [|a s IH]; intros H.
  - discriminate.
  - pose proof (re_search_length _ _ H) as Hl.
    rewrite re_search_unfold in H. rewrite re_search_unfold.
    destruct (match_here_app (String a s) t Hl) as (g' & Hd & He & Ht).
    rewrite He. destruct (match_here (String a s)) as [g0|].
    + injection H as ->. exists g'. auto.
    + change (String a s +:+ t) with (String a (s +:+ t)). cbn [fmap option_fmap option_map].
      apply IH, H.
Qed.

(** *** The budget of a trial *)

Lemma naps_app a b : naps (a ++ b) = naps a ++ naps b.
Proof. apply omap_app. Qed.

Lemma naps_turns c n : naps (turns c n) = replicate n 1000.
Proof.
  induction n as [|n IH]; [reflexivity|].
  rewrite turns_S. cbn. f_equal. exact IH.
Qed.

Lemma within_refl w : within 0 0 w w.
Proof.
  exists []. rewrite app_nil_r. repeat split; try reflexivity. constructor.
Qed.

Lemma within_trans a b a' b' w w1 w2 :
  within a b w w1 -> within a' b' w1 w2 -> within (a + a') (b + b') w w2.
Proof.
  intros (e1 & H1 & Ha & Hb & Hf) (e2 & H2 & Ha' & Hb' & Hf').
  exists (e1 ++ e2). split; [rewrite H2, H1, app_assoc; reflexivity|].
  rewrite calls_app, naps_app, !length_app. split; [lia|]. split; [lia|].
  apply Forall_app. split; assumption.
Qed.

Lemma within_weaken a b a' b' w w' :
  within a b w w' -> (a <= a')%nat -> (b <= b')%nat -> within a' b' w w'.
Proof.
  intros (e & H & Ha & Hb & Hf) Hla Hlb. exists e.
  split; [exact H|]. split; [lia|]. split; [lia | exact Hf].
Qed.

Lemma within_ran P c w : within 1 0 w (ran P c w).
Proof.
  exists [Ran c]. split; [reflexivity|]. cbn. repeat split; try lia. constructor.
Qed.

Lemma within_print l w : within 0 0 w (record (Printed l) w).
Proof.
  exists [Printed l]. split; [reflexivity|]. cbn. repeat split; try lia. constructor.
Qed.

Lemma within_prepared profile consumers work_duration w :
  within 0 0 w (prepared profile consumers work_duration w).
Proof.
  exists [Printed (Announce profile consumers work_duration)].
  split; [reflexivity|]. cbn. repeat split; try lia. constructor.
Qed.

Lemma within_subprocess_run P args env w :
  within 1 0 w (final (subprocess_run P args env w)).
Proof.
  unfold subprocess_run. destruct (resp _); apply within_ran.
Qed.

Lemma within_poll P profile service_name env start_time total fuel w :
  let o := poll P fuel profile service_name env start_time total w in
  (forall w', o <> Fuel w') ->
  within fuel (fuel - 1) w (final o).
Proof.
  cbv zeta. intros Hend.
  pose proof (poll_cases P profile service_name env start_time total fuel w) as Hc.
  cbv zeta in Hc. destruct Hc as (_ & _ & n & Hc).
  assert (Hrep : Forall (fun ms => ms = 1000) (replicate n 1000))
    by (apply Forall_replicate; reflexivity).
  destruct (poll _ _ _ _ _ _ _ w) as [v w'|e w'|w']; cbn [final].
  - destruct Hc as (Hn & [(rc & out & g & _ & _ & _ & Ht & _)|(_ & _ & Ht)]);
      eexists; (split; [exact Ht|]);
      rewrite calls_app, naps_app, calls_turns, naps_turns, !length_app,
        !length_replicate; cbn; rewrite app_nil_r;
      (split; [lia|]; split; [lia | exact Hrep]).
  - destruct Hc as (Hn & _ & Ht). eexists. split; [exact Ht|].
    rewrite calls_app, naps_app, calls_turns, naps_turns, !length_app,
      !length_replicate; cbn; rewrite app_nil_r.
    split; [lia|]. split; [lia | exact Hrep].
  - exfalso. exact (Hend w' eq_refl).
Qed.

Section Budget.
Variable P : platform.
Hypothesis Hsteady : steady_clock P.

(** With a steady clock the 62 turns are all the loop ever uses. *)
Lemma run_benchmark_62 fuel profile consumers work_duration w :
  (62 <= fuel)%nat ->
  run_benchmark P fuel profile consumers work_duration w =
  run_benchmark P 62 profile consumers work_duration w.
Proof.
  intros Hf. rewrite !run_benchmark_eq. cbv zeta.
  destruct (subprocess_run P (down_args profile) _ _) as [o1 w1|e1 w1|w1];
    try reflexivity.
  destruct (subprocess_run P (up_args profile) _ w1) as [o2 w2|e2 w2|w2];
    try reflexivity.
  rewrite (poll_more_fuel P _ _ _ _ _ 62 fuel w2 Hf); [reflexivity|].
  intros w'. apply poll_not_fuel; [exact Hsteady | lia | lia].
Qed.

Lemma run_benchmark_within fuel profile consumers work_duration w :
  (62 <= fuel)%nat ->
  within 65 61 w (final (run_benchmark P fuel profile consumers work_duration w)).
Proof.
  intros Hf. rewrite (run_benchmark_62 _ _ _ _ _ Hf), run_benchmark_eq. cbv zeta.
  set (env := Local (length (heap w))).
  set (w0 := prepared profile consumers work_duration w).
  pose proof (within_prepared profile consumers work_duration w) as H0. fold w0 in H0.
  pose proof (within_subprocess_run P (down_args profile) env w0) as H1.
  destruct (subprocess_run P (down_args profile) env w0) as [o1 w1|e1 w1|w1];
    cbn [final] in H1 |- *;
    try (eapply within_weaken; [exact (within_trans _ _ _ _ _ _ _ H0 H1)|lia|lia]).
  pose proof (within_subprocess_run P (up_args profile) env w1) as H2.
  pose proof (within_trans _ _ _ _ _ _ _ (within_trans _ _ _ _ _ _ _ H0 H1) H2) as H02.
  destruct (subprocess_run P (up_args profile) env w1) as [o2 w2|e2 w2|w2];
    cbn [final] in H2, H02 |- *;
    try (eapply within_weaken; [exact H02|lia|lia]).
  assert (Hend : forall w', poll P 62 profile ("app-" +:+ profile) env (clock w2) 0 w2
                            <> Fuel w').
  { intros w'. apply poll_not_fuel; [exact Hsteady | lia | lia]. }
  pose proof (within_poll P profile ("app-" +:+ profile) env (clock w2) 0 62 w2 Hend) as H3.
  pose proof (within_trans _ _ _ _ _ _ _ H02 H3) as H03.
  destruct (poll P 62 profile _ env (clock w2) 0 w2) as [v w3|e3 w3|w3];
    cbn [final] in H3, H03 |- *;
    try (eapply within_weaken; [exact H03|lia|lia]).
  pose proof (within_subprocess_run P (down_args profile) env w3) as H4.
  pose proof (within_trans _ _ _ _ _ _ _ H03 H4) as H04.
  destruct (subprocess_run P (down_args profile) env w3) as [o4 w4|e4 w4|w4];
    cbn [final] in H4, H04 |- *;
    (eapply within_weaken; [exact H04|lia|lia]).
Qed.

Lemma sweep_within fuel work_duration consumer_counts : forall w,
  (62 <= fuel)%nat ->
  within (130 * length consumer_counts) (122 * length consumer_counts) w
    (final (sweep P fuel consumer_counts work_duration w)).
Proof.
  induction consumer_counts as [|count rest IH]; intros w Hf.
  - cbn. apply within_refl.
  - cbn [sweep]. unfold bind, print.
    pose proof (run_benchmark_within fuel "lua" count work_duration w Hf) as H1.
    destruct (run_benchmark P fuel "lua" count work_duration w) as [lua w1|e w1|w1];
      cbn [final] in H1 |- *;
      try (eapply within_weaken; [exact H1|cbn [length]; lia|cbn [length]; lia]).
    pose proof (run_benchmark_within fuel "redlock" count work_duration w1 Hf) as H2.
    pose proof (within_trans _ _ _ _ _ _ _ H1 H2) as H12.
    destruct (run_benchmark P fuel "redlock" count work_duration w1) as [red w2|e w2|w2];
      cbn [final] in H2, H12 |- *;
      try (eapply within_weaken; [exact H12|cbn [length]; lia|cbn [length]; lia]).
    pose proof (percent_diff_cases lua red w2) as Hd.
    destruct (percent_diff lua red w2) as [d w2'|e w2'|w2']; [| |contradiction].
    + destruct Hd as (-> & _).
      pose proof (within_trans _ _ _ _ _ _ _ H12
                    (within_print (Row count lua red d) w2)) as H3.
      eapply within_weaken;
        [exact (within_trans _ _ _ _ _ _ _ H3 (IH _ Hf))
        |cbn [length]; lia|cbn [length]; lia].
    + destruct Hd as (-> & _). cbn [final].
      eapply within_weaken; [exact H12|cbn [length]; lia|cbn [length]; lia].
Qed.

End Budget.

(** *** The time a trial takes *)

Section Elapsed.
Variable P : platform.
Variables d j : Z.
Hypothesis Hsteady : steady_clock P.
Hypothesis Hdelays : bounded_delays P d j.

Lemma delays_nonneg : 0 <= d /\ 0 <= j.
Proof.
  destruct Hsteady as [Hs1 Hs2], Hdelays as [Hb1 Hb2].
  specialize (Hs1 [] {| argv := []; call_env := ∅ |}).
  specialize (Hb1 [] {| argv := []; call_env := ∅ |}).
  specialize (Hs2 [] 0). specialize (Hb2 [] 0). lia.
Qed.

Lemma clock_subprocess_run args env w :
  clock (final (subprocess_run P args env w)) <= clock w + d.
Proof.
  destruct Hdelays as [Hb _]. unfold subprocess_run.
  specialize (Hb (trace w) {| argv := args; call_env := deref env w |}).
  destruct (resp _); cbn; lia.
Qed.

Lemma run_benchmark_elapsed fuel profile consumers work_duration w :
  (62 <= fuel)%nat ->
  clock (final (run_benchmark P fuel profile consumers work_duration w))
  <= clock w + (61000 + j + 4 * d).
Proof.
  intros Hf. destruct delays_nonneg as [Hd Hj].
  rewrite run_benchmark_eq. cbv zeta.
  set (env := Local (length (heap w))).
  set (w0 := prepared profile consumers work_duration w).
  assert (H0 : clock w0 = clock w) by reflexivity.
  pose proof (clock_subprocess_run (down_args profile) env w0) as H1.
  destruct (subprocess_run P (down_args profile) env w0) as [o1 w1|e1 w1|w1];
    cbn [final] in H1 |- *; try lia.
  pose proof (clock_subprocess_run (up_args profile) env w1) as H2.
  destruct (subprocess_run P (up_args profile) env w1) as [o2 w2|e2 w2|w2];
    cbn [final] in H2 |- *; try lia.
  pose proof (poll_elapsed P profile ("app-" +:+ profile) env (clock w2) 0 d j
                Hdelays fuel w2 ltac:(lia)) as H3.
  destruct (poll P fuel profile _ env (clock w2) 0 w2) as [v w3|e3 w3|w3] eqn:Hp;
    cbn [final] in H3 |- *; try lia.
  - pose proof (clock_subprocess_run (down_args profile) env w3) as H4.
    destruct (subprocess_run P (down_args profile) env w3) as [o4 w4|e4 w4|w4];
      cbn [final] in H4 |- *; lia.
  - exfalso. eapply poll_not_fuel; [exact Hsteady| | |exact Hp]; lia.
Qed.

Lemma sweep_elapsed fuel work_duration consumer_counts : forall w,
  (62 <= fuel)%nat ->
  clock (final (sweep P fuel consumer_counts work_duration w))
  <= clock w + 2 * Z.of_nat (length consumer_counts) * (61000 + j + 4 * d).
Proof.
  destruct delays_nonneg as [Hd Hj].
  induction consumer_counts as [|count rest IH]; intros w Hf.
  - cbn. lia.
  - cbn [sweep]. unfold bind, print.
    pose proof (run_benchmark_elapsed fuel "lua" count work_duration w Hf) as H1.
    destruct (run_benchmark P fuel "lua" count work_duration w) as [lua w1|e w1|w1];
      cbn [final length] in H1 |- *; try nia.
    pose proof (run_benchmark_elapsed fuel "redlock" count work_duration w1 Hf) as H2.
    destruct (run_benchmark P fuel "redlock" count work_duration w1) as [red w2|e w2|w2];
      cbn [final length] in H2 |- *; try nia.
    pose proof (percent_diff_cases lua red w2) as Hq.
    destruct (percent_diff lua red w2) as [q w2'|e w2'|w2']; [| |contradiction].
    + destruct Hq as (-> & _).
      specialize (IH (record (Printed (Row count lua red q)) w2) Hf).
      cbn [clock record] in IH. nia.
    + destruct Hq as (-> & _). cbn [final]. nia.
Qed.

End Elapsed.

(** *** The timeout is not early; a stalled clock *)

Lemma subprocess_run_ret P args env w out w' :
  subprocess_run P args env w = Ret out w' ->
  w' = ran P {| argv := args; call_env := deref env w |} w.
Proof.
  unfold subprocess_run. destruct (resp _); [|discriminate].
  intros [= _ <-]. reflexivity.
Qed.

Lemma clock_ran P c w : steady_clock P -> clock w <= clock (ran P c w).
Proof. intros [Hs _]. specialize (Hs (trace w) c). cbn. lia. Qed.

Lemma run_benchmark_notice_clock P fuel profile consumers work_duration w v w' p :
  steady_clock P ->
  run_benchmark P fuel profile consumers work_duration w = Ret v w' ->
  In (TimeoutNotice p) (printed (since w w')) ->
  60000 < clock w' - clock w.
Proof.
  intros Hs H Hin. rewrite run_benchmark_eq in H. cbv zeta in H.
  set (env := Local (length (heap w))) in H.
  set (w0 := prepared profile consumers work_duration w) in H.
  destruct (subprocess_run P (down_args profile) env w0) as [o1 w1|e1 w1|w1] eqn:H1;
    try discriminate.
  destruct (subprocess_run P (up_args profile) env w1) as [o2 w2|e2 w2|w2] eqn:H2;
    try discriminate.
  destruct (poll P fuel profile _ env (clock w2) 0 w2) as [v3 w3|e3 w3|w3] eqn:H3;
    try discriminate.
  destruct (subprocess_run P (down_args profile) env w3) as [o4 w4|e4 w4|w4] eqn:H4;
    try discriminate.
  injection H as -> ->.
  apply subprocess_run_ret in H1, H2, H4.
  pose proof (poll_cases P profile ("app-" +:+ profile) env (clock w2) 0 fuel w2) as Hc.
  cbv zeta in Hc. rewrite H3 in Hc. destruct Hc as (_ & _ & n & _ & Hc).
  assert (Hc0 : clock w <= clock w2).
  { subst w2 w1. pose proof (clock_ran P {| argv := down_args profile; call_env := deref env w0 |} w0 Hs).
    pose proof (clock_ran P {| argv := up_args profile;
                               call_env := deref env (ran P {| argv := down_args profile; call_env := deref env w0 |} w0) |}
                  (ran P {| argv := down_args profile; call_env := deref env w0 |} w0) Hs).
    change (clock w0) with (clock w) in *. lia. }
  assert (Hc4 : clock w3 <= clock w') by (subst w'; apply clock_ran, Hs).
  destruct Hc as [(rc & out & g & _ & _ & _ & Ht & _)|(_ & Hlt & _)]; [|lia].
  exfalso.
  assert (Hsince : since w w' =
            [Printed (Announce profile consumers work_duration)]
            ++ [Ran {| argv := down_args profile; call_env := deref env w0 |}]
            ++ [Ran {| argv := up_args profile; call_env := deref env w1 |}]
            ++ (turns {| argv := logs_args ("app-" +:+ profile); call_env := deref env w2 |} n
                ++ [Ran {| argv := logs_args ("app-" +:+ profile); call_env := deref env w2 |}])
            ++ [Ran {| argv := down_args profile; call_env := deref env w3 |}]).
  { apply since_app. subst w'. cbn [ran trace advance record]. rewrite Ht.
    subst w2. cbn [ran trace advance record]. subst w1. cbn [ran trace advance record].
    change (trace w0) with (trace w ++ [Printed (Announce profile consumers work_duration)]).
    rewrite <- !app_assoc. reflexivity. }
  rewrite Hsince, !printed_app, printed_turns in Hin. cbn in Hin.
  destruct Hin as [Hin|[]]. discriminate.
Qed.

Section Stalled.
Variable P : platform.
Variables (profile : string) (env : dictref) (start_time total : Z).
Hypothesis Hstall : clock_stalls P.
Hypothesis Hanswers : always_completes P.
Hypothesis Hnever : never_marked P ("app-" +:+ profile).

Lemma poll_stalls fuel : forall w,
  clock w <= start_time + 60000 ->
  exists w',
    poll P fuel profile ("app-" +:+ profile) env start_time total w = Fuel w' /\
    within fuel fuel w w' /\ (fuel <= length (calls (since w w')))%nat.
Proof.
  destruct Hstall as [Ht Hn].
  induction fuel as [|fuel IH]; intros w Hw.
  - exists w. split; [reflexivity|]. split; [apply within_refl|]. cbn. lia.
  - cbn [poll]. unfold bind. rewrite poll_once_eq. cbv zeta.
    set (c := {| argv := logs_args ("app-" +:+ profile); call_env := deref env w |}).
    destruct (Hanswers (trace w) c) as (rc & out & Hr). rewrite Hr.
    rewrite (re_search_none _ (Hnever _ _ _ _ Hr eq_refl)).
    set (w1 := fetched P ("app-" +:+ profile) env w).
    assert (Hc1 : clock w1 <= start_time + 60000).
    { unfold w1, fetched, ran. cbn. fold c. specialize (Ht (trace w) c). lia. }
    destruct (60000 <? clock w1 - start_time) eqn:Hlt; [apply Z.ltb_lt in Hlt; lia|].
    set (w2 := slept P 1000 w1).
    assert (Hc2 : clock w2 <= start_time + 60000).
    { unfold w2, slept. cbn [clock advance record]. specialize (Hn (trace w1) 1000). lia. }
    destruct (IH w2 Hc2) as (w' & -> & Hin & Hlen). exists w'.
    split; [reflexivity|].
    assert (H12 : within 1 1 w w2).
    { exists [Ran c; Slept 1000]. split; [cbn; rewrite <- app_assoc; reflexivity|].
      cbn. repeat split; try lia. repeat constructor. }
    split.
    + eapply within_weaken; [exact (within_trans _ _ _ _ _ _ _ H12 Hin)|lia|lia].
    + destruct Hin as (evs & He & _). rewrite (since_app _ _ _ He) in Hlen.
      assert (Hs : since w w' = [Ran c; Slept 1000] ++ evs).
      { apply since_app. rewrite He. cbn. rewrite <- !app_assoc. reflexivity. }
      rewrite Hs, calls_app, length_app. cbn. lia.
Qed.

End Stalled.

Lemma run_benchmark_stalls P fuel profile consumers work_duration w :
  clock_stalls P -> always_completes P ->
  never_marked P ("app-" +:+ profile) ->
  exists w',
    run_benchmark P fuel profile consumers work_duration w = Fuel w' /\
    (fuel <= length (calls (since w w')))%nat.
Proof.
  intros Hstall Hanswers Hnever.
  rewrite run_benchmark_eq. cbv zeta.
  set (e := Local (length (heap w))).
  set (w0 := prepared profile consumers work_duration w).
  unfold subprocess_run at 1.
  destruct (Hanswers (trace w0) {| argv := down_args profile; call_env := deref e w0 |})
    as (rc0 & out0 & ->).
  set (w1 := ran P _ w0).
  unfold subprocess_run at 1.
  destruct (Hanswers (trace w1) {| argv := up_args profile; call_env := deref e w1 |})
    as (rc1 & out1 & ->).
  set (w2 := ran P _ w1).
  destruct (poll_stalls P profile e (clock w2) 0 Hstall Hanswers Hnever fuel w2
              ltac:(lia)) as (w' & -> & (evs & He & _) & Hlen).
  exists w'. split; [reflexivity|].
  rewrite (since_app _ _ _ He) in Hlen.
  assert (Hs : since w w' =
            [Printed (Announce profile consumers work_duration)]
            ++ [Ran {| argv := down_args profile; call_env := deref e w0 |}]
            ++ [Ran {| argv := up_args profile; call_env := deref e w1 |}] ++ evs).
  { apply since_app. rewrite He. unfold w2. cbn [ran trace advance record].
    unfold w1. cbn [ran trace advance record].
    change (trace w0) with (trace w ++ [Printed (Announce profile consumers work_duration)]).
    rewrite <- !app_assoc. reflexivity. }
  rewrite Hs, !calls_app, !length_app. cbn. lia.
Qed.

(** *** The sign of the difference *)

Lemma nearest_Qeq q q' : (q == q')%Q -> nearest q = nearest q'.
Proof. intros H. unfold nearest. rewrite (Qred_complete _ _ H). reflexivity. Qed.

Lemma nearest_zero p : nearest (0 # p) = 0%Q.
Proof. reflexivity. Qed.

Lemma signbit_fmul x k : signbit (fmul x k) = signbit x.
Proof. destruct x as [s m|s]; cbn; [destruct (Qle_bool _ _)|]; reflexivity. Qed.

Lemma percent_diff_some lua_time red_time w q :
  0 < lua_time ->
  fdiv (red_time - lua_time) lua_time = Some q ->
  percent_diff lua_time red_time w = Ret (fmul q 100) w.
Proof.
  intros Hl Hq. unfold percent_diff, truediv, bind.
  apply Z.ltb_lt in Hl as Hl'. rewrite Hl'.
  destruct (lua_time =? 0) eqn:Hz; [apply Z.eqb_eq in Hz; lia|].
  rewrite Hq. reflexivity.
Qed.

Lemma percent_diff_none lua_time red_time w :
  0 < lua_time ->
  fdiv (red_time - lua_time) lua_time = None ->
  percent_diff lua_time red_time w = Exc OverflowError w.
Proof.
  intros Hl Hq. unfold percent_diff, truediv, bind.
  apply Z.ltb_lt in Hl as Hl'. rewrite Hl'.
  destruct (lua_time =? 0) eqn:Hz; [apply Z.eqb_eq in Hz; lia|].
  rewrite Hq. reflexivity.
Qed.

(** The quotient of two equal positive numbers is the float 1.0. *)
Lemma nearest_one p : nearest (Z.pos p # p) = 1%Q.
Proof.
  rewrite (nearest_Qeq (Z.pos p # p) 1); [vm_compute; reflexivity|].
  unfold Qeq. cbn. lia.
Qed.

Lemma minus_hundred :
  fmul (Finite true 1) 100 = Finite true 100 /\
  fixed2 (Finite true 100) = "-100.00" /\
  fmul (Finite false 0) 100 = zero.
Proof. repeat split; vm_compute; reflexivity. Qed.

(** *** Every call of a sweep is configured *)

Lemma configured_given work_duration consumer_counts host n e :
  In n consumer_counts ->
  given (trial_env host n work_duration) e ->
  configured work_duration consumer_counts e.
Proof.
  intros Hn. destruct e as [c| |]; cbn; [|trivial..]. intros ->.
  destruct (trial_env_lookup host n work_duration) as (H1 & H2 & _).
  split; [exact H2|]. exists n. auto.
Qed.

Lemma configured_more work_duration n consumer_counts e :
  configured work_duration consumer_counts e ->
  configured work_duration (n :: consumer_counts) e.
Proof.
  destruct e as [c| |]; cbn; [|trivial..].
  intros (H & m & Hm & H'). split; [exact H|]. exists m. auto.
Qed.

Lemma sweep_configured P fuel work_duration consumer_counts : forall w,
  exists evs,
    trace (final (sweep P fuel consumer_counts work_duration w)) = trace w ++ evs /\
    Forall (configured work_duration consumer_counts) evs.
Proof.
  induction consumer_counts as [|count rest IH]; intros w.
  - exists []. cbn. rewrite app_nil_r. split; [reflexivity | constructor].
  - assert (Htrial : forall p w0,
      exists evs,
        trace (final (run_benchmark P fuel p count work_duration w0)) = trace w0 ++ evs /\
        Forall (configured work_duration (count :: rest)) evs).
    { intros p w0.
      destruct (run_benchmark_given P fuel p count work_duration w0) as [_ Hg].
      pose proof (run_benchmark_cases P fuel p count work_duration w0) as Hc.
      cbv zeta in Hc. destruct Hc as (_ & evs & Ht & _).
      rewrite (since_app _ _ _ Ht) in Hg. exists evs. split; [exact Ht|].
      eapply Forall_impl; [exact Hg|]. intros e He.
      eapply configured_given; [|exact He]. left. reflexivity. }
    cbn [sweep]. unfold bind, print.
    destruct (Htrial "lua" w) as (e1 & Ht1 & Hc1).
    destruct (run_benchmark P fuel "lua" count work_duration w) as [lua w1|e w1|w1];
      cbn [final] in Ht1 |- *; try (exists e1; split; assumption).
    destruct (Htrial "redlock" w1) as (e2 & Ht2 & Hc2).
    destruct (run_benchmark P fuel "redlock" count work_duration w1) as [red w2|e w2|w2];
      cbn [final] in Ht2 |- *;
      try (exists (e1 ++ e2); split;
           [rewrite Ht2, Ht1, app_assoc; reflexivity | apply Forall_app; split; assumption]).
    pose proof (percent_diff_cases lua red w2) as Hd.
    destruct (percent_diff lua red w2) as [q w2'|e w2'|w2']; [| |contradiction].
    2:{ destruct Hd as (-> & _). cbn [final]. exists (e1 ++ e2). split;
          [rewrite Ht2, Ht1, app_assoc; reflexivity | apply Forall_app; split; assumption]. }
    destruct Hd as (-> & _).
    destruct (IH (record (Printed (Row count lua red q)) w2)) as (e3 & Ht3 & Hc3).
    exists (e1 ++ e2 ++ [Printed (Row count lua red q)] ++ e3). split.
    + rewrite Ht3. cbn [trace record]. rewrite Ht2, Ht1, <- !app_assoc. reflexivity.
    + apply Forall_app; split; [exact Hc1|]. apply Forall_app; split; [exact Hc2|].
      constructor; [exact I|].
      eapply Forall_impl; [exact Hc3|]. intros e. apply configured_more.
Qed.

End MoreFacts.

(** ** Further properties of the program *)

Module More.
Import Text Floating Marker Runtime Benchmark Protocol Scenarios Measures.
Import MarkerFacts PollFacts TrialFacts FloatFacts SweepFacts TraceFacts.
Import ScenarioFacts MoreFacts.

(** X1.  [main] prints the header and the rule before anything else; the
    rows that follow are those of 5, 10, 100 and 200, in this order (a
    prefix of them if it is cut short), each after the Lua and the Redlock
    trial of its count with a work duration of 50.  With a steady clock, a
    backend that always answers and modest times in the logs (at most 4300
    digits, below [2^1023]), [main] returns. *)
Theorem main_table P fuel w :
  (exists evs,
     since w (final (main P fuel w)) = Printed Header :: Printed Rule :: evs /\
     row_counts evs `prefix_of` [5; 10; 100; 200] /\
     (forall w', main P fuel w = Ret tt w' ->
        sweep_events (environ w) 50 [5; 10; 100; 200] evs /\
        row_counts evs = [5; 10; 100; 200])) /\
  (steady_clock P -> always_completes P -> modest P -> (62 <= fuel)%nat ->
   exists w', main P fuel w = Ret tt w') /\
  render Header = "Consumers  | Lua (ms)   | Redlock (ms)    | Diff (%)  " /\
  render Rule = "-------------------------------------------------------".
Proof.
  set (w2 := record (Printed Rule) (record (Printed Header) w)).
  assert (Hm : main P fuel w = sweep P fuel [5; 10; 100; 200] 50 w2) by reflexivity.
  split; [|split; [|split; reflexivity]].
  - pose proof (sweep_cases P fuel 50 [5; 10; 100; 200] w2) as Hc.
    cbv zeta in Hc. destruct Hc as (_ & evs & Ht & _ & Hp & Hc).
    exists evs. rewrite Hm. split; [|split; [exact Hp|]].
    + apply since_app. rewrite Ht. cbn [w2 trace record].
      rewrite <- !app_assoc. reflexivity.
    + intros w' H. rewrite H in Hc. exact Hc.
  - intros Hs Ha Hmod Hf. rewrite Hm. apply sweep_returns; assumption.
Qed.

Lemma main_table_witness : exists w', main quick 62 host = Ret tt w'.
Proof.
  apply (proj1 (proj2 (main_table quick 62 host)));
    [exact quick_steady | exact quick_completes | exact quick_modest | lia].
Defined.

(** X2.  A trial never returns a negative number. *)
Theorem trial_result_nonneg P fuel profile consumers work_duration w v w' :
  run_benchmark P fuel profile consumers work_duration w = Ret v w' -> 0 <= v.
Proof. intros H. apply run_benchmark_ret in H as (_ & Hv & _). exact Hv. Qed.

Lemma trial_result_nonneg_witness : 0 <= 120.
Proof.
  apply (trial_result_nonneg quick 1 "lua" 5 50 host 120
           (final (run_benchmark quick 1 "lua" 5 50 host))).
  vm_compute. reflexivity.
Defined.

(** X3.  What a trial raises is what one of its backend calls raised,
    or the [ValueError] of [int] on a fetched number of more than 4300
    digits.  What [main] raises is that, or the [OverflowError] of the
    division of line 52 on two times read from the logs, the Redlock one at
    least [OVERFLOW] times the Lua one above it; never a division by zero.
    When the backend always answers and the times in the logs are modest,
    nothing is raised. *)
Theorem exception_origins P fuel :
  (forall profile consumers work_duration w e w',
     run_benchmark P fuel profile consumers work_duration w = Exc e w' ->
     exists h c, raised_by P h c e) /\
  (forall w e w', main P fuel w = Exc e w' -> sweep_raises P e) /\
  (forall w w', main P fuel w <> Exc ZeroDivisionError w') /\
  (always_completes P -> modest P ->
   forall w e w', main P fuel w <> Exc e w').
Proof.
  assert (Hmain : forall w e w', main P fuel w = Exc e w' -> sweep_raises P e).
  { intros w e w' H.
    pose proof (sweep_cases P fuel 50 [5; 10; 100; 200]
                  (record (Printed Rule) (record (Printed Header) w))) as Hc.
    cbv zeta in Hc. change (sweep P fuel [5; 10; 100; 200] 50 _)
      with (main P fuel w) in Hc. rewrite H in Hc.
    destruct Hc as (_ & evs & _ & _ & _ & Hc). exact Hc. }
  split; [|split; [|split]].
  - intros profile consumers work_duration w e w' H.
    apply run_benchmark_exc in H as (_ & h & c & H & _). eauto.
  - exact Hmain.
  - intros w w' H.
    destruct (Hmain w _ w' H) as [(h & c & [(err & He & _)|(He & _)])|(He & _)];
      discriminate.
  - intros Ha Hm w e w' H.
    destruct (Hmain w e w' H) as [(h & c & [(err & _ & Hr)|(_ & rc & out & i & Hr & Hi & Hlong)])
                                 |(_ & lua & red & Hl & Hr & Hpos & Hover)].
    + destruct (Ha h c) as (rc & out & Hr'). congruence.
    + destruct (Hm h c rc out i Hr Hi) as [Hshort _]. lia.
    + pose proof (modest_read P red Hm Hr) as Hlt.
      pose proof overflow_above as Ho.
      assert (OVERFLOW <= OVERFLOW * lua) by nia. lia.
Qed.

Lemma exception_origins_witness :
  (exists h c, raised_by overlong h c ValueError) /\
  sweep_raises lopsided OverflowError /\
  (forall w e w', main quick 1 w <> Exc e w').
Proof.
  split; [|split].
  - apply (proj1 (exception_origins overlong 5) "lua" 5 50 host ValueError
             (final (run_benchmark overlong 5 "lua" 5 50 host))).
    vm_compute. reflexivity.
  - apply (proj1 (proj2 (exception_origins lopsided 1)) host OverflowError
             (final (main lopsided 1 host))).
    vm_compute. reflexivity.
  - apply (proj2 (proj2 (proj2 (exception_origins quick 1))));
      [exact quick_completes | exact quick_modest].
Defined.

(** X4.  The substring test of line 27 is implied by the pattern: what
    lines 27-31 do on a fetched text, the search and [int] alone do (line 28
    to 31 without the test), and a text without the marker text has no
    match. *)
Theorem marker_test_is_implied s w :
  scan_logs s w = scan_by_search s w /\
  (contains MARKER_TEXT s = false -> re_search s = None).
Proof.
  assert (Hc : contains MARKER_TEXT s = false -> re_search s = None).
  { intros Hc. destruct (re_search s) as [g|] eqn:Hs; [|reflexivity].
    rewrite (re_search_contains _ _ Hs) in Hc. discriminate. }
  split; [|exact Hc].
  unfold scan_logs, scan_by_search.
  destruct (contains MARKER_TEXT s); [reflexivity|].
  rewrite (Hc eq_refl). reflexivity.
Qed.

Lemma marker_test_is_implied_witness :
  re_search "Attaching to app-lua-1, redis-1" = None.
Proof.
  apply (proj2 (marker_test_is_implied "Attaching to app-lua-1, redis-1" host)).
  reflexivity.
Defined.

(** X5.  The logs are cumulative.  When a fetched text yields [v], read
    from the group [g], the same text with more text appended has the group
    [g] followed by digits [g']: by none when the appended text does not
    begin with a digit, and then it still yields [v], so a marker line that
    has been ended is read the same way by every later poll.  Otherwise it
    yields [v] followed by the digits of [g'], or [int] raises when the
    group has grown beyond 4300 digits. *)
Theorem appended_text_keeps_marker s t v w :
  scan_logs s w = Ret (Some v) w ->
  exists g g',
    re_search s = Some g /\ v = decimal g /\
    all_digits g' = true /\
    (digit_run t = EmptyString -> g' = EmptyString) /\
    scan_logs (s +:+ t) w =
      (if (String.length g + String.length g' <=? MAX_STR_DIGITS)%nat
       then Ret (Some (decimal_from v g')) w
       else Exc ValueError w) /\
    (digit_run t = EmptyString -> scan_logs (s +:+ t) w = Ret (Some v) w).
Proof.
  rewrite !scan_logs_search. intros H.
  destruct (re_search s) as [g|] eqn:Hs; [|discriminate].
  destruct (String.length g <=? MAX_STR_DIGITS)%nat eqn:Hl; [|discriminate].
  injection H as <-.
  destruct (re_search_app _ t _ Hs) as (g' & Hd & He & Ht).
  exists g, g'. split; [reflexivity|]. split; [reflexivity|].
  split; [exact Hd|]. split; [exact Ht|].
  rewrite He, length_append. unfold decimal at 1. rewrite decimal_from_app.
  split; [reflexivity|].
  intros Hrun. rewrite (Ht Hrun). cbn [String.length].
  rewrite Nat.add_0_r, Hl. unfold decimal. rewrite decimal_from_app. reflexivity.
Qed.

Lemma appended_text_keeps_marker_witness :
  scan_logs ("app-lua-1  | TOTAL_TIME_MS: 120"
             +:+ (NL +:+ "app-lua-1 exited with code 0")) host
  = Ret (Some 120) host.
Proof.
  destruct (appended_text_keeps_marker "app-lua-1  | TOTAL_TIME_MS: 120"
              (NL +:+ "app-lua-1 exited with code 0") 120 host eq_refl)
    as (g & g' & _ & _ & _ & _ & _ & H).
  apply H. reflexivity.
Defined.

(** A marker line fetched before it was written whole is read short. *)
Example partial_line_is_read_short :
  scan_logs "app-lua-1  | TOTAL_TIME_MS: 12" host = Ret (Some 12) host /\
  scan_logs ("app-lua-1  | TOTAL_TIME_MS: 12" +:+ "0" +:+ NL) host
  = Ret (Some 120) host.
Proof. split; reflexivity. Qed.

(** X6.  The timeout is never declared early: when the loop ends with the
    notice, more than 60 seconds separate the clock from [start_time], and
    [total_time_ms] is returned unchanged; with a steady clock, a trial that
    printed the notice lasted more than 60 seconds. *)
Theorem timeout_not_early P fuel profile :
  (forall service_name env start_time total w v w' p,
     poll P fuel profile service_name env start_time total w = Ret v w' ->
     In (TimeoutNotice p) (printed (since w w')) ->
     60000 < clock w' - start_time /\ v = total) /\
  (steady_clock P ->
   forall consumers work_duration w v w' p,
     run_benchmark P fuel profile consumers work_duration w = Ret v w' ->
     In (TimeoutNotice p) (printed (since w w')) ->
     60000 < clock w' - clock w).
Proof.
  split.
  - intros service_name env start_time total w v w' p H Hin.
    pose proof (poll_cases P profile service_name env start_time total fuel w) as Hc.
    cbv zeta in Hc. rewrite H in Hc. destruct Hc as (_ & _ & n & _ & Hc).
    destruct Hc as [(rc & out & g & _ & _ & _ & Ht & _)|(Hv & Hlt & _)]; [|auto].
    exfalso. rewrite (since_app _ _ _ Ht), printed_app, printed_turns in Hin.
    exact Hin.
  - intros Hs consumers work_duration w v w' p H Hin.
    eapply run_benchmark_notice_clock; eassumption.
Qed.

Lemma timeout_not_early_witness :
  60000 < clock (final (run_benchmark jittery 62 "lua" 5 50 host)) - clock host.
Proof.
  apply (proj2 (timeout_not_early jittery 62 "lua"))
    with (consumers := 5) (work_duration := 50) (v := 0) (p := "lua").
  - split; intros; cbn; lia.
  - vm_compute. reflexivity.
  - vm_compute. right. left. reflexivity.
Defined.

(** X7.  With a steady clock a trial makes at most 65 backend
    invocations (reset, start, at most 62 fetches, teardown) and sleeps at
    most 61 times, one second asked each time; a sweep makes at most 130
    invocations per count, and [main] at most 520. *)
Theorem invocation_budget P fuel :
  steady_clock P -> (62 <= fuel)%nat ->
  (forall profile consumers work_duration w,
     within 65 61 w
       (final (run_benchmark P fuel profile consumers work_duration w))) /\
  (forall consumer_counts work_duration w,
     within (130 * length consumer_counts) (122 * length consumer_counts) w
       (final (sweep P fuel consumer_counts work_duration w))) /\
  (forall w, within 520 488 w (final (main P fuel w))).
Proof.
  intros Hs Hf. split; [|split].
  - intros profile consumers work_duration w. apply run_benchmark_within; assumption.
  - intros consumer_counts work_duration w. apply sweep_within; assumption.
  - intros w.
    pose proof (sweep_within P Hs fuel 50 [5; 10; 100; 200]
                  (record (Printed Rule) (record (Printed Header) w)) Hf) as H.
    change (sweep P fuel [5; 10; 100; 200] 50 _) with (main P fuel w) in H.
    pose proof (within_trans _ _ _ _ _ _ _
                  (within_trans _ _ _ _ _ _ _ (within_print Header w)
                     (within_print Rule (record (Printed Header) w))) H) as H'.
    exact H'.
Qed.

Lemma invocation_budget_witness :
  within 65 61 host (final (run_benchmark silent 62 "lua" 5 50 host)).
Proof.
  apply (proj1 (invocation_budget silent 62 silent_steady ltac:(lia))).
Defined.

(** The budget is reached when nothing is ever reported, commands take no
    time and sleeps are exact. *)
Example invocation_budget_is_reached :
  length (calls (trace (final (run_benchmark silent 62 "lua" 5 50 host)))) = 65%nat /\
  length (naps (trace (final (run_benchmark silent 62 "lua" 5 50 host)))) = 61%nat /\
  length (calls (trace (final (main silent 62 host)))) = 520%nat.
Proof. vm_compute. repeat split. Qed.

(** X8.  With a steady clock, commands that take at most [d] and sleeps
    that oversleep by at most [j], a trial is over within 61 s + [j] + 4
    [d]; a sweep within twice that per count; [main] within eight times
    that. *)
Theorem duration_budget P d j fuel :
  steady_clock P -> bounded_delays P d j -> (62 <= fuel)%nat ->
  (forall profile consumers work_duration w,
     clock (final (run_benchmark P fuel profile consumers work_duration w))
     - clock w <= 61000 + j + 4 * d) /\
  (forall consumer_counts work_duration w,
     clock (final (sweep P fuel consumer_counts work_duration w)) - clock w
     <= 2 * Z.of_nat (length consumer_counts) * (61000 + j + 4 * d)) /\
  (forall w,
     clock (final (main P fuel w)) - clock w <= 8 * (61000 + j + 4 * d)).
Proof.
  intros Hs Hb Hf. split; [|split].
  - intros profile consumers work_duration w.
    pose proof (run_benchmark_elapsed P d j Hs Hb fuel profile consumers
                  work_duration w Hf). lia.
  - intros consumer_counts work_duration w.
    pose proof (sweep_elapsed P d j Hs Hb fuel work_duration consumer_counts w Hf).
    lia.
  - intros w.
    pose proof (sweep_elapsed P d j Hs Hb fuel 50 [5; 10; 100; 200]
                  (record (Printed Rule) (record (Printed Header) w)) Hf) as H.
    change (sweep P fuel [5; 10; 100; 200] 50 _) with (main P fuel w) in H.
    cbn [clock record length] in H. lia.
Qed.

Lemma jittery_steady : steady_clock jittery.
Proof. split; intros; cbn; lia. Qed.

Lemma jittery_delays : bounded_delays jittery 300 5.
Proof. split; intros; cbn; lia. Qed.

Lemma duration_budget_witness :
  clock (final (main jittery 62 host)) - clock host <= 8 * (61000 + 5 + 4 * 300).
Proof.
  apply (proj2 (proj2 (duration_budget jittery 300 5 62 jittery_steady
                          jittery_delays ltac:(lia)))).
Defined.

(** X9.  The loop has no bound of its own on the number of turns: if the
    clock makes no progress, the backend always answers and the marker
    never appears, the trial does not return, however many turns are
    followed, and it has made at least that many fetches. *)
Theorem stalled_clock_never_returns P profile consumers work_duration w :
  clock_stalls P -> always_completes P ->
  never_marked P ("app-" +:+ profile) ->
  forall fuel, exists w',
    run_benchmark P fuel profile consumers work_duration w = Fuel w' /\
    (fuel <= length (calls (since w w')))%nat.
Proof.
  intros Hst Ha Hn fuel. apply run_benchmark_stalls; assumption.
Qed.

Lemma stalled_stalls : clock_stalls stalled.
Proof. split; intros; cbn; lia. Qed.

Lemma stalled_completes : always_completes stalled.
Proof. intros h c. cbn. eauto. Qed.

Lemma stalled_never_marked service_name : never_marked stalled service_name.
Proof.
  intros h c rc out Hr _ j. cbn in Hr. injection Hr as _ <-. apply occurs_at_empty.
Qed.

Lemma stalled_clock_never_returns_witness :
  exists w',
    run_benchmark stalled 1000 "lua" 5 50 host = Fuel w' /\
    (1000 <= length (calls (since host w')))%nat.
Proof.
  apply (stalled_clock_never_returns stalled "lua" 5 50 host stalled_stalls
           stalled_completes (stalled_never_marked _) 1000%nat).
Defined.

(** X10.  When the Lua trial reported a time, the division raises
    [OverflowError] exactly when the Redlock time is at least [OVERFLOW]
    times the Lua time above it.  Otherwise the difference is a float whose
    sign tells which variant was faster: it is written with a minus sign
    exactly when the Redlock time is the smaller one; it is 0.0 when the two
    times are equal; and a Redlock trial that timed out (time 0) gives
    -100.0, printed as -100.00. *)
Theorem difference_sign lua_time red_time w :
  0 < lua_time -> 0 <= red_time ->
  (percent_diff lua_time red_time w = Exc OverflowError w <->
   OVERFLOW * lua_time <= red_time - lua_time) /\
  (red_time - lua_time < OVERFLOW * lua_time ->
   exists x,
     percent_diff lua_time red_time w = Ret x w /\
     (signbit x = true <-> red_time < lua_time) /\
     (red_time = lua_time -> x = zero) /\
     (red_time = 0 -> x = Finite true 100 /\ fixed2 x = "-100.00")).
Proof.
  intros Hl Hr. pose proof (overflow_difference lua_time red_time Hl Hr) as Hov.
  split.
  - split.
    + intros H. apply Hov, fdiv_none.
      pose proof (percent_diff_cases lua_time red_time w) as Hd.
      rewrite H in Hd. apply Hd.
    + intros H. apply percent_diff_none; [exact Hl|]. apply fdiv_none, Hov, H.
  - intros Hb.
    assert (Hb' : Z.abs (red_time - lua_time) < OVERFLOW * Z.abs lua_time).
    { destruct (Z.le_gt_cases (OVERFLOW * Z.abs lua_time) (Z.abs (red_time - lua_time)))
        as [Hle|Hgt]; [apply Hov in Hle; lia | exact Hgt]. }
    pose proof (fdiv_some _ _ Hb') as Hq.
    assert (Hneg : (lua_time <? 0) = false) by (apply Z.ltb_ge; lia).
    rewrite Hneg, xorb_false_r in Hq.
    eexists. split; [exact (percent_diff_some _ _ w _ Hl Hq)|].
    split; [|split].
    + rewrite signbit_fmul. cbn [signbit]. rewrite Z.ltb_lt. lia.
    + intros ->. rewrite Z.sub_diag.
      change (Z.abs 0) with 0. change (0 <? 0) with false.
      rewrite nearest_zero. apply minus_hundred.
    + intros ->. destruct lua_time as [|p|p]; try lia.
      change (0 - Z.pos p) with (Z.neg p).
      change (Z.abs (Z.neg p)) with (Z.pos p).
      change (Z.to_pos (Z.abs (Z.pos p))) with p.
      change (Z.neg p <? 0) with true.
      rewrite nearest_one.
      destruct minus_hundred as (H1 & H2 & _). rewrite H1. auto.
Qed.

Lemma difference_sign_witness :
  exists x,
    percent_diff 120 0 host = Ret x host /\
    (signbit x = true <-> 0 < 120) /\
    (0 = 120 -> x = zero) /\
    (0 = 0 -> x = Finite true 100 /\ fixed2 x = "-100.00").
Proof.
  apply (difference_sign 120 0 host); [lia | lia |].
  apply Z.ltb_lt. vm_compute. reflexivity.
Defined.

(** The quotient can be too small for a float as well: a Redlock time one
    millisecond above a Lua time of [10^324] gives the difference 0.0. *)
Example difference_underflows :
  percent_diff (10 ^ 324) (10 ^ 324 + 1) host = Ret zero host.
Proof. vm_compute. reflexivity. Qed.

(** X11.  Every backend invocation of a sweep, whichever variant and
    however the sweep ends, is given the work duration of the sweep as
    [WORK_DURATION] and one of the counts of the list as [NUM_CONSUMERS];
    in [main] these are 50 and one of 5, 10, 100, 200. *)
Theorem calls_are_configured P fuel :
  (forall consumer_counts work_duration w,
     Forall (configured work_duration consumer_counts)
       (since w (final (sweep P fuel consumer_counts work_duration w)))) /\
  (forall w,
     Forall (configured 50 [5; 10; 100; 200])
       (since w (final (main P fuel w)))).
Proof.
  split.
  - intros consumer_counts work_duration w.
    destruct (sweep_configured P fuel work_duration consumer_counts w)
      as (evs & Ht & Hc).
    rewrite (since_app _ _ _ Ht). exact Hc.
  - intros w.
    destruct (sweep_configured P fuel 50 [5; 10; 100; 200]
                (record (Printed Rule) (record (Printed Header) w)))
      as (evs & Ht & Hc).
    change (sweep P fuel [5; 10; 100; 200] 50 _) with (main P fuel w) in Ht.
    assert (Hs : since w (final (main P fuel w))
                 = Printed Header :: Printed Rule :: evs).
    { apply since_app. rewrite Ht. cbn [trace record].
      rewrite <- !app_assoc. reflexivity. }
    rewrite Hs. repeat constructor. exact Hc.
Qed.

End More.
